(** * ts-calculator: the arithmetic engine, the calculation history and the
      two front ends (terminal prompt loop, browser form)

    Sources embedded here:
    - [src/index.ts]       terminal calculator with history     (module [Index])
    - [src/calculator.ts]  terminal calculator, operator first  (module [Calculator])
    - [web/app.js]         browser form (compiled from the TypeScript file
                           that is textually the same program)  (module [Web])

    The language run time the programs rely on (IEEE-754 doubles, [parseFloat],
    the number-to-string conversion of template literals, [toLowerCase],
    [trim]) is in module [JS], following ECMA-262. *)

From Stdlib Require Import ZArith Lia Bool Ascii String DecimalString DecimalN.
From Stdlib Require Import Floats.SpecFloat.
From stdpp Require Import base list strings.

Local Open Scope string_scope.
Local Open Scope list_scope.
Local Open Scope Z_scope.

(* ===================================================================== *)
(** * The run time: numbers and strings of the language                   *)
(* ===================================================================== *)

Module JS.

(** ** Numbers: IEEE-754 binary64 *)

Definition prec : Z := 53.
Definition emax : Z := 1024.

(** A [number] is a double: signed zeros, signed infinities, one NaN and the
    finite values [(-1)^s * m * 2^e]. *)
Definition number : Type := spec_float.

Definition NaN : number := S754_nan.
Definition pos_zero : number := S754_zero false.
Definition neg_zero : number := S754_zero true.
Definition Infinity : number := S754_infinity false.
Definition neg_Infinity : number := S754_infinity true.

(** [a + b], [a - b], [a * b], [a / b] on numbers (round to nearest, ties to
    even). *)
Definition num_add (a b : number) : number := SFadd prec emax a b.
Definition num_sub (a b : number) : number := SFsub prec emax a b.
Definition num_mul (a b : number) : number := SFmul prec emax a b.
Definition num_div (a b : number) : number := SFdiv prec emax a b.

(** [a === b] on numbers: NaN differs from everything, [+0 === -0]. *)
Definition strict_eq (a b : number) : bool := SFeqb a b.

(** The global [isNaN] applied to a number. *)
Definition isNaN (a : number) : bool :=
  match a with
  | S754_nan => true
  | _ => false
  end.


(** [Number.isFinite]: neither NaN nor an infinity. *)
Definition isFinite (a : number) : bool :=
  match a with
  | S754_zero _ | S754_finite _ _ _ => true
  | _ => false
  end.

(** The double nearest to the integer [z]. *)
Definition of_Z (z : Z) : number := binary_normalize prec emax z 0 false.

(** The double nearest to the positive rational [n / d], with sign [s]. *)
Definition round_ratio (s : bool) (n d : positive) : number :=
  let '(q, e, l) := SFdiv_core_binary prec emax (Zpos n) 0 (Zpos d) 0 in
  binary_round_aux prec emax s q e l.

(** The double nearest to [(-1)^s * m * 10^x]. *)
Definition of_decimal (s : bool) (m : Z) (x : Z) : number :=
  match m with
  | Zpos p =>
      if 0 <=? x then binary_round prec emax s (p * Z.to_pos (10 ^ x)) 0
      else round_ratio s p (Z.to_pos (10 ^ (- x)))
  | _ => S754_zero s
  end.

(** ** Strings

    A string is a sequence of code units; the model keeps the code units
    U+0000..U+00FF, one [ascii] each. *)

Definition code (c : ascii) : N := N_of_ascii c.

(** WhiteSpace and LineTerminator code points (ECMA-262 12.2, 12.3) below
    U+0100: TAB, LF, VT, FF, CR, SP, NBSP. *)
Definition isWhiteSpace (c : ascii) : bool :=
  let n := code c in
  ((9 <=? n) && (n <=? 13) || (n =? 32) || (n =? 160))%N.

(** String.prototype.trimStart / trimEnd / trim. *)
Fixpoint trimStart (s : string) : string :=
  match s with
  | String c r => if isWhiteSpace c then trimStart r else s
  | EmptyString => EmptyString
  end.

Fixpoint trimEnd (s : string) : string :=
  match s with
  | String c r =>
      match trimEnd r with
      | EmptyString => if isWhiteSpace c then EmptyString else String c EmptyString
      | r' => String c r'
      end
  | EmptyString => EmptyString
  end.

Definition trim (s : string) : string := trimEnd (trimStart s).

(** String.prototype.toLowerCase on the code units kept: A-Z, and the
    Latin-1 capitals U+00C0..U+00DE without the multiplication sign U+00D7. *)
Definition lower_char (c : ascii) : ascii :=
  let n := code c in
  if ((65 <=? n) && (n <=? 90)
      || (192 <=? n) && (n <=? 222) && negb (n =? 215))%N
  then ascii_of_N (n + 32) else c.

Fixpoint toLowerCase (s : string) : string :=
  match s with
  | String c r => String (lower_char c) (toLowerCase r)
  | EmptyString => EmptyString
  end.

(** ** parseFloat (ECMA-262 19.2.4)

    Leading white space is dropped, then the longest prefix that is a
    StrDecimalLiteral is converted:
      [+-]? ( Infinity | digits [. digits?] [exp] | . digits [exp] )
    with  exp = [eE] [+-]? digits.  No such prefix gives NaN. *)

Definition digit_value (c : ascii) : option Z :=
  let n := code c in
  if ((48 <=? n) && (n <=? 57))%N then Some (Z.of_N n - 48) else None.

(** Reads DecimalDigits: the accumulated value, how many digits were read,
    and what follows them. *)
Fixpoint take_digits (acc cnt : Z) (s : string) : Z * Z * string :=
  match s with
  | String c r =>
      match digit_value c with
      | Some d => take_digits (10 * acc + d) (cnt + 1) r
      | None => (acc, cnt, s)
      end
  | EmptyString => (acc, cnt, s)
  end.

(** The value of an ExponentPart at the head of [s], 0 when there is none. *)
Definition exponent_part (s : string) : Z :=
  match s with
  | String c r =>
      if (code c =? 101)%N || (code c =? 69)%N then
        let '(neg, r') :=
          match r with
          | String "-" t => (true, t)
          | String "+" t => (false, t)
          | _ => (false, r)
          end in
        let '(v, cnt, _) := take_digits 0 0 r' in
        if cnt =? 0 then 0 else if neg then - v else v
      else 0
  | EmptyString => 0
  end.

Definition parseFloat (input : string) : number :=
  let t := trimStart input in
  let '(neg, u) :=
    match t with
    | String "-" r => (true, r)
    | String "+" r => (false, r)
    | _ => (false, t)
    end in
  if String.prefix "Infinity" u then S754_infinity neg
  else
    let '(ip, ic, r1) := take_digits 0 0 u in
    let '(m, fc, r2) :=
      match r1 with
      | String "." r => take_digits ip 0 r
      | _ => (ip, 0, r1)
      end in
    if ic + fc =? 0 then NaN
    else of_decimal neg m (exponent_part r2 - fc).

(** ** Number::toString, radix 10 (ECMA-262 6.1.6.1.20)

    What a template literal [`${x}`] inserts for a number [x]. *)

(** The decimal numeral of a non-negative integer. *)
Definition digits_of (z : Z) : string :=
  NilZero.string_of_uint (N.to_uint (Z.to_N z)).

Fixpoint zeros (n : nat) : string :=
  match n with
  | O => ""
  | S n' => String "0" (zeros n')
  end.

(** For [0 < n / d < 1]: the least [j >= 1] with [d <= n * 10^j]. *)
Fixpoint leading_zeros (fuel : nat) (n d : Z) : Z :=
  match fuel with
  | O => 1
  | S fuel' => if d <=? 10 * n then 1 else 1 + leading_zeros fuel' (10 * n) d
  end.

(** The integer [n] with [10^(n-1) <= num / den < 10^n]. *)
Definition decimal_exponent (num den : Z) : Z :=
  if den <=? num then Z.of_nat (String.length (digits_of (num / den)))
  else 1 - leading_zeros (Z.to_nat (Z.log2 den + 1)) num den.

(** Step 5: integers [n], [k], [s] with [k >= 1], [10^(k-1) <= s < 10^k],
    [s * 10^(n-k)] rounding to [x], and [k] as small as possible; of two
    such [s] the one nearest to [x], the even one on a tie.  [x] is the
    positive finite value [num / den], [n] its decimal exponent; the
    search goes through [k], [k+1], ... and returns [(s, n, k)]. *)
Fixpoint shortest (fuel : nat) (k : Z) (x : number) (num den n : Z) : Z * Z * Z :=
  let '(a, b) :=
    if n <=? k then (num * 10 ^ (k - n), den) else (num, den * 10 ^ (n - k)) in
  let lo := a / b in
  let r := a mod b in
  let '(hi, hn) := if lo + 1 =? 10 ^ k then (10 ^ (k - 1), n + 1) else (lo + 1, n) in
  let lo_ok := SFeqb (of_decimal false lo (n - k)) x in
  let hi_ok := SFeqb (of_decimal false hi (hn - k)) x in
  match fuel with
  | O => (lo, n, k)
  | S fuel' =>
      if lo_ok && hi_ok then
        match 2 * r ?= b with
        | Lt => (lo, n, k)
        | Gt => (hi, hn, k)
        | Eq => if Z.even lo then (lo, n, k) else (hi, hn, k)
        end
      else if lo_ok then (lo, n, k)
      else if hi_ok then (hi, hn, k)
      else shortest fuel' (k + 1) x num den n
  end.

(** Steps 6 to 10: the digits of [s] laid out by [n] and [k]. *)
Definition layout (ds : string) (n k : Z) : string :=
  if (k <=? n) && (n <=? 21) then
    ds +:+ zeros (Z.to_nat (n - k))
  else if (0 <? n) && (n <=? 21) then
    substring 0 (Z.to_nat n) ds +:+ "." +:+ substring (Z.to_nat n) (Z.to_nat (k - n)) ds
  else if (-6 <? n) && (n <=? 0) then
    "0." +:+ zeros (Z.to_nat (- n)) +:+ ds
  else
    let c := if n - 1 <? 0 then "-" else "+" in
    let e := digits_of (Z.abs (n - 1)) in
    if k =? 1 then ds +:+ "e" +:+ c +:+ e
    else substring 0 1 ds +:+ "." +:+ substring 1 (Z.to_nat (k - 1)) ds
         +:+ "e" +:+ c +:+ e.

Definition Number_toString (x : number) : string :=
  match x with
  | S754_nan => "NaN"
  | S754_zero _ => "0"
  | S754_infinity s => if s then "-Infinity" else "Infinity"
  | S754_finite s m e =>
      let '(num, den) := if 0 <=? e then (Zpos m * 2 ^ e, 1) else (Zpos m, 2 ^ (- e)) in
      let '(d, n, k) :=
        shortest 17 1 (S754_finite false m e) num den (decimal_exponent num den) in
      (if s then "-" else "") +:+ layout (digits_of d) n k
  end.

(** The same conversion for an array index plus one, [`${index + 1}`]: an
    integer below 2^53 prints as its decimal numeral (step 6 with
    [k <= n <= 21]). *)
Definition index_toString (i : nat) : string := digits_of (Z.of_nat i).

End JS.

Import JS.

(** The line feed written [\n] in the sources, and the double quote. *)
Definition LF : string := String "010"%char "".
Definition DQ : string := String "034"%char "".

(* ===================================================================== *)
(** * Arithmetic engine                                                   *)
(* ===================================================================== *)

(** [new Error(message)], the only kind of value the programs throw. *)
Record Error : Type := mkError { message : string }.

(** How a call completes: it returns a value or throws. *)
Inductive completion (A : Type) : Type :=
  | Return (value : A)
  | Throw (error : Error).
Arguments Return {A} value.
Arguments Throw {A} error.

(** [add], [subtract], [multiply] and [divide] are the same text in
    src/index.ts (lines 23-44), src/calculator.ts (19-36) and web/app.js
    (7-25). *)
Module Engine.

Definition add (a b : number) : number := num_add a b.

Definition subtract (a b : number) : number := num_sub a b.

Definition multiply (a b : number) : number := num_mul a b.

Definition divide (a b : number) : completion number :=
  if strict_eq b pos_zero then Throw (mkError "Cannot divide by zero!")
  else Return (num_div a b).

End Engine.

(* ===================================================================== *)
(** * src/index.ts: the terminal calculator with history                  *)
(* ===================================================================== *)

(** What the program does to its terminal: [rl.question] shows a prompt and
    suspends until a line is typed, [console.log] prints, [rl.close]
    releases the input. *)
Inductive event : Type :=
  | Question (prompt : string)
  | ConsoleLog (text : string)
  | Close.

(** The prompts among the events, in the order they were issued. *)
Fixpoint questions (es : list event) : list string :=
  match es with
  | Question q :: r => q :: questions r
  | _ :: r => questions r
  | [] => []
  end.

Module Index.
Import Engine.

Definition isValidNumber (input : string) : bool :=
  let num := parseFloat input in
  negb (isNaN num).

Definition isValidOperation (operation : string) : bool :=
  String.eqb operation "+" || String.eqb operation "-"
  || String.eqb operation "*" || String.eqb operation "/".

Definition wantsToQuit (input : string) : bool :=
  let lowerInput := trim (toLowerCase input) in
  String.eqb lowerInput "q" || String.eqb lowerInput "quit"
  || String.eqb lowerInput "no".

(** The callback of [calculationHistory.forEach] in [showHistory]. *)
Definition historyLine (index : nat) (calc : string) : string :=
  index_toString (index + 1) +:+ ". " +:+ calc.

(** [showHistory]: the lines it prints for the history array. *)
Definition showHistory (calculationHistory : list string) : list event :=
  if (length calculationHistory =? 0)%nat then
    [ConsoleLog (LF +:+ "No calculations in history yet." +:+ LF)]
  else
    [ConsoleLog (LF +:+ "=== Calculation History ===")]
    ++ imap (fun index calc => ConsoleLog (historyLine index calc)) calculationHistory
    ++ [ConsoleLog ""].

(** [clearHistory]: the emptied array and the line printed. *)
Definition clearHistory (calculationHistory : list string)
  : list string * list event :=
  ([], [ConsoleLog (LF +:+ "History cleared!" +:+ LF)]).

(** The calculation string ["5 + 3 = 8"] of lines 160 and 164. *)
Definition calculationString (num1 : number) (operation : string)
    (num2 result : number) : string :=
  Number_toString num1 +:+ " " +:+ operation +:+ " "
  +:+ Number_toString num2 +:+ " = " +:+ Number_toString result.

(** Step 4 of [performCalculation], the dispatch of lines 143-156. *)
Definition dispatch (num1 num2 : number) (operation : string)
  : completion number :=
  if String.eqb operation "+" then Return (add num1 num2)
  else if String.eqb operation "-" then Return (subtract num1 num2)
  else if String.eqb operation "*" then Return (multiply num1 num2)
  else divide num1 num2.

(** Steps 4 and 5, the [try]/[catch] of lines 140-169: what is printed and
    the history array afterwards. *)
Definition compute (num1 num2 : number) (operation : string)
    (calculationHistory : list string) : list string * list event :=
  match dispatch num1 num2 operation with
  | Return result =>
      (calculationHistory ++ [calculationString num1 operation num2 result],
       [ConsoleLog (LF +:+ "Result: "
                    +:+ calculationString num1 operation num2 result +:+ LF)])
  | Throw error =>
      (calculationHistory,
       [ConsoleLog (LF +:+ "Error: " +:+ message error +:+ LF)])
  end.

Definition firstPrompt : string := "Enter the first number: ".
Definition secondPrompt : string := "Enter the second number: ".
Definition operationPrompt : string := "Enter the operation (+, -, *, /): ".
Definition continuePrompt : string :=
  "Calculate again? (Press Enter to continue, type " +:+ DQ +:+ "history" +:+ DQ
  +:+ " to view past calculations, type " +:+ DQ +:+ "clear" +:+ DQ
  +:+ " to clear history, or type q/quit/no to exit): ".
Definition invalidNumber : string :=
  "Error: That is not a valid number. Please try again." +:+ LF.
Definition invalidOperation : string :=
  "Error: Invalid operation! Valid options are: +, -, *, /" +:+ LF.

(** Where the program is suspended, waiting for a line: at one of the three
    [await askQuestion] of [performCalculation] (lines 101, 116, 129, with
    the operands read so far), at the one of [main] (line 191), or nowhere
    once the loop of [main] is left. *)
Inductive state : Type :=
  | AwaitOperand1
  | AwaitOperand2 (num1 : number)
  | AwaitOperator (num1 num2 : number)
  | AwaitContinuation
  | Exited.

(** [performCalculation] resumed with the line [answer] at one of its three
    questions: the state it suspends in next, the history array, and what it
    printed and asked on the way.  Returning from [performCalculation] puts
    [main] at its question of line 191. *)
Definition performCalculation (s : state) (answer : string)
    (calculationHistory : list string) : state * list string * list event :=
  match s with
  | AwaitOperand1 =>
      if isValidNumber answer then
        (AwaitOperand2 (parseFloat answer), calculationHistory,
         [Question secondPrompt])
      else
        (AwaitOperand1, calculationHistory,
         [ConsoleLog invalidNumber; Question firstPrompt])
  | AwaitOperand2 num1 =>
      if isValidNumber answer then
        (AwaitOperator num1 (parseFloat answer), calculationHistory,
         [Question operationPrompt])
      else
        (AwaitOperand2 num1, calculationHistory,
         [ConsoleLog invalidNumber; Question secondPrompt])
  | AwaitOperator num1 num2 =>
      if isValidOperation answer then
        let '(history', printed) := compute num1 num2 answer calculationHistory in
        (AwaitContinuation, history', printed ++ [Question continuePrompt])
      else
        (AwaitOperator num1 num2, calculationHistory,
         [ConsoleLog invalidOperation; Question operationPrompt])
  | _ => (s, calculationHistory, [])
  end.

(** The loop of [main] resumed with the line [answer] (lines 186-215). *)
Definition main (s : state) (answer : string)
    (calculationHistory : list string) : state * list string * list event :=
  match s with
  | AwaitContinuation =>
      let continueInput := answer in
      let trimmedInput := trim (toLowerCase continueInput) in
      if String.eqb trimmedInput "history" then
        (AwaitOperand1, calculationHistory,
         showHistory calculationHistory ++ [Question firstPrompt])
      else if String.eqb trimmedInput "clear" then
        let '(history', printed) := clearHistory calculationHistory in
        (AwaitOperand1, history', printed ++ [Question firstPrompt])
      else if wantsToQuit continueInput then
        (Exited, calculationHistory, [ConsoleLog (LF +:+ "Goodbye!"); Close])
      else
        (AwaitOperand1, calculationHistory,
         [ConsoleLog ""; Question firstPrompt])
  | Exited => (Exited, calculationHistory, [])
  | _ => performCalculation s answer calculationHistory
  end.

(** [main] up to its first question. *)
Definition start : state * list string * list event :=
  (AwaitOperand1, [],
   [ConsoleLog ("=== Terminal Calculator ===" +:+ LF); Question firstPrompt]).

(** The program fed the typed lines [answers], from a suspended
    configuration. *)
Fixpoint run (c : state * list string * list event) (answers : list string)
  : state * list string * list event :=
  match answers with
  | [] => c
  | answer :: rest =>
      let '(s, calculationHistory, shown) := c in
      let '(s', history', more) := main s answer calculationHistory in
      run (s', history', shown ++ more) rest
  end.

End Index.

(* ===================================================================== *)
(** * src/calculator.ts: the terminal calculator that asks the operator
      first                                                               *)
(* ===================================================================== *)

Module Calculator.
Import Engine.

Definition operationPrompt : string := "Enter operation (+, -, *, /, or q to quit): ".
Definition firstPrompt : string := "Enter first number: ".
Definition secondPrompt : string := "Enter second number: ".
Definition invalidOperation : string :=
  "Invalid operation! Please use +, -, *, or /." +:+ LF.
Definition invalidNumber : string :=
  "Invalid number! Please enter a valid number." +:+ LF.

(** Where [calculator] is suspended: at the [await askQuestion] of line 50,
    63 or 71, or nowhere after [rl.close()] and [break]. *)
Inductive state : Type :=
  | AwaitOperation
  | AwaitFirst (operation : string)
  | AwaitSecond (operation : string) (num1 : number)
  | Closed.

(** The [switch] of lines 81-96. *)
Definition dispatch (num1 num2 : number) (operation : string)
  : completion number :=
  if String.eqb operation "+" then Return (add num1 num2)
  else if String.eqb operation "-" then Return (subtract num1 num2)
  else if String.eqb operation "*" then Return (multiply num1 num2)
  else if String.eqb operation "/" then divide num1 num2
  else Throw (mkError "Invalid operation").

(** [['+', '-', '*', '/'].includes(operation)] *)
Definition includes (operation : string) : bool :=
  String.eqb operation "+" || String.eqb operation "-"
  || String.eqb operation "*" || String.eqb operation "/".

(** The body of the [while (true)] of [calculator] resumed with the line
    [answer]; every [continue] and the end of the body lead back to the
    question of line 50. *)
Definition calculator (s : state) (answer : string) : state * list event :=
  match s with
  | AwaitOperation =>
      let operation := answer in
      if String.eqb (toLowerCase operation) "q" then
        (Closed, [ConsoleLog "Goodbye!"; Close])
      else if negb (includes operation) then
        (AwaitOperation, [ConsoleLog invalidOperation; Question operationPrompt])
      else
        (AwaitFirst operation, [Question firstPrompt])
  | AwaitFirst operation =>
      let num1 := parseFloat answer in
      if isNaN num1 then
        (AwaitOperation, [ConsoleLog invalidNumber; Question operationPrompt])
      else
        (AwaitSecond operation num1, [Question secondPrompt])
  | AwaitSecond operation num1 =>
      let num2 := parseFloat answer in
      if isNaN num2 then
        (AwaitOperation, [ConsoleLog invalidNumber; Question operationPrompt])
      else
        match dispatch num1 num2 operation with
        | Return result =>
            (AwaitOperation,
             [ConsoleLog (LF +:+ "Result: " +:+ Number_toString num1 +:+ " "
                          +:+ operation +:+ " " +:+ Number_toString num2
                          +:+ " = " +:+ Number_toString result +:+ LF);
              Question operationPrompt])
        | Throw error =>
            (AwaitOperation,
             [ConsoleLog (LF +:+ "Error: " +:+ message error +:+ LF);
              Question operationPrompt])
        end
  | Closed => (Closed, [])
  end.

(** [calculator] up to its first question (lines 40-50). *)
Definition start : state * list event :=
  (AwaitOperation,
   [ConsoleLog ("=== Terminal Calculator ===" +:+ LF);
    ConsoleLog "Available operations:";
    ConsoleLog "  + (addition)";
    ConsoleLog "  - (subtraction)";
    ConsoleLog "  * (multiplication)";
    ConsoleLog "  / (division)";
    ConsoleLog ("  q (quit)" +:+ LF);
    Question operationPrompt]).

Fixpoint run (c : state * list event) (answers : list string)
  : state * list event :=
  match answers with
  | [] => c
  | answer :: rest =>
      let '(s, shown) := c in
      let '(s', more) := calculator s answer in
      run (s', shown ++ more) rest
  end.

End Calculator.

(* ===================================================================== *)
(** * web/app.js: the browser form                                        *)
(* ===================================================================== *)

Module Web.
Import Engine.

(** The part of the document the handlers read and write, together with the
    module-level array [calculationHistory]. *)
Record page : Type := mkPage {
  num1_value : string;             (* #num1 .value *)
  num2_value : string;             (* #num2 .value *)
  operation_value : string;        (* #operation .value *)
  result_textContent : string;     (* #result .textContent *)
  result_className : string;       (* #result .className *)
  historyList_innerHTML : string;  (* #historyList .innerHTML *)
  calculationHistory : list string
}.

(** The callback of [calculationHistory.map] in [updateHistoryDisplay]. *)
Definition historyItem (index : nat) (calc : string) : string :=
  "<div class=" +:+ DQ +:+ "history-item" +:+ DQ +:+ ">"
  +:+ index_toString (index + 1) +:+ ". " +:+ calc +:+ "</div>".

Definition historyEmpty : string :=
  "<div class=" +:+ DQ +:+ "history-empty" +:+ DQ +:+ ">No calculations yet</div>".

(** [array.join('')] *)
Definition join (parts : list string) : string := String.concat "" parts.

Definition updateHistoryDisplay (p : page) : page :=
  if (length (calculationHistory p) =? 0)%nat then
    mkPage (num1_value p) (num2_value p) (operation_value p)
           (result_textContent p) (result_className p)
           historyEmpty (calculationHistory p)
  else
    let historyHTML := join (imap historyItem (calculationHistory p)) in
    mkPage (num1_value p) (num2_value p) (operation_value p)
           (result_textContent p) (result_className p)
           historyHTML (calculationHistory p).

Definition addToHistory (calculation : string) (p : page) : page :=
  updateHistoryDisplay
    (mkPage (num1_value p) (num2_value p) (operation_value p)
            (result_textContent p) (result_className p)
            (historyList_innerHTML p) (calculationHistory p ++ [calculation])).

Definition clearHistory (p : page) : page :=
  updateHistoryDisplay
    (mkPage (num1_value p) (num2_value p) (operation_value p)
            (result_textContent p) (result_className p)
            (historyList_innerHTML p) []).

Definition performCalculation (num1 num2 : number) (operation : string)
  : completion number :=
  if String.eqb operation "+" then Return (add num1 num2)
  else if String.eqb operation "-" then Return (subtract num1 num2)
  else if String.eqb operation "*" then Return (multiply num1 num2)
  else if String.eqb operation "/" then divide num1 num2
  else Throw (mkError "Invalid operation").

(** [resultElement.textContent = text; resultElement.className = cls] *)
Definition setResult (text cls : string) (p : page) : page :=
  mkPage (num1_value p) (num2_value p) (operation_value p)
         text cls (historyList_innerHTML p) (calculationHistory p).

Definition handleCalculate (p : page) : page :=
  let num1 := parseFloat (num1_value p) in
  let num2 := parseFloat (num2_value p) in
  let operation := operation_value p in
  if isNaN num1 || isNaN num2 then
    setResult "Error: Please enter valid numbers" "result error" p
  else
    match performCalculation num1 num2 operation with
    | Return result =>
        let calculationString :=
          Number_toString num1 +:+ " " +:+ operation +:+ " "
          +:+ Number_toString num2 +:+ " = " +:+ Number_toString result in
        addToHistory calculationString (setResult calculationString "result" p)
    | Throw error =>
        let errorMessage := message error in
        setResult ("Error: " +:+ errorMessage) "result error" p
    end.

Definition handleClearHistory (p : page) : page := clearHistory p.

(** [handleClear]: both fields emptied, the result region reset. *)
Definition handleClear (p : page) : page :=
  mkPage "" "" (operation_value p) "Result will appear here" "result"
         (historyList_innerHTML p) (calculationHistory p).

(** The page when the script has loaded: empty fields, empty history. *)
Definition initial (operation : string) : page :=
  mkPage "" "" operation "Result will appear here" "result" "" [].

Definition withInputs (v1 v2 operation : string) (p : page) : page :=
  mkPage v1 v2 operation (result_textContent p) (result_className p)
         (historyList_innerHTML p) (calculationHistory p).

End Web.

(* ===================================================================== *)
(** * Notions used in the statements                                      *)
(* ===================================================================== *)

Import Engine.

Definition divisionByZero : Error := mkError "Cannot divide by zero!".

(** The history array after one line of input. *)
Definition historyAfter (c : Index.state * list string * list event)
  : list string := snd (fst c).

(** The state a run ends in. *)
Definition stateAfter (c : Index.state * list string * list event)
  : Index.state := fst (fst c).

(** The question the terminal shows while src/index.ts is suspended in a
    state. *)
Definition pendingQuestion (s : Index.state) : list string :=
  match s with
  | Index.AwaitOperand1 => [Index.firstPrompt]
  | Index.AwaitOperand2 _ => [Index.secondPrompt]
  | Index.AwaitOperator _ _ => [Index.operationPrompt]
  | Index.AwaitContinuation => [Index.continuePrompt]
  | Index.Exited => []
  end.

(** The states follow one another in the order first operand, second
    operand, operator, continuation; a refused line repeats a state. *)
Definition follows (s s' : Index.state) : Prop :=
  match s with
  | Index.AwaitOperand1 =>
      s' = Index.AwaitOperand1 \/ exists n1, s' = Index.AwaitOperand2 n1
  | Index.AwaitOperand2 n1 =>
      s' = Index.AwaitOperand2 n1 \/ exists n2, s' = Index.AwaitOperator n1 n2
  | Index.AwaitOperator n1 n2 =>
      s' = Index.AwaitOperator n1 n2 \/ s' = Index.AwaitContinuation
  | Index.AwaitContinuation =>
      s' = Index.AwaitOperand1 \/ s' = Index.Exited
  | Index.Exited => s' = Index.Exited
  end.

Definition tenPlusFive : Web.page :=
  Web.withInputs "10" "5" "+" (Web.initial "+").

(** One calculation: the operands and the operator, as [performCalculation]
    holds them at step 4. *)
Definition calculation : Type := number * string * number.





(** A string made of white space only (the empty string included). *)
Fixpoint allWhiteSpace (s : string) : bool :=
  match s with
  | String c r => isWhiteSpace c && allWhiteSpace r
  | EmptyString => true
  end.

(** The operands src/index.ts holds while it is suspended are numbers that
    went through [isValidNumber]. *)
Definition operandsValid (s : Index.state) : Prop :=
  match s with
  | Index.AwaitOperand2 num1 => isNaN num1 = false
  | Index.AwaitOperator num1 num2 => isNaN num1 = false /\ isNaN num2 = false
  | _ => True
  end.

(** A finite double as a dyadic number: [(M, e)] stands for [M * 2^e]. *)
Definition dyadic : Type := Z * Z.

Definition valueOf (a : number) : option dyadic :=
  match a with
  | S754_zero _ => Some (0, 0)
  | S754_finite s m e => Some (cond_Zopp s (Zpos m), e)
  | _ => None
  end.

(** The exact sum of two dyadic numbers, and their equality. *)
Definition dyadic_add (x y : dyadic) : dyadic :=
  let z := Z.min (snd x) (snd y) in
  (fst x * 2 ^ (snd x - z) + fst y * 2 ^ (snd y - z), z).

Definition dyadic_eqb (x y : dyadic) : bool :=
  let z := Z.min (snd x) (snd y) in
  fst x * 2 ^ (snd x - z) =? fst y * 2 ^ (snd y - z).

(** [add a b] is the exact sum of [a] and [b]: both are finite and the
    addition neither rounds nor overflows. *)
Definition addIsExact (a b : number) : bool :=
  match valueOf a, valueOf b, valueOf (add a b) with
  | Some x, Some y, Some r => dyadic_eqb r (dyadic_add x y)
  | _, _, _ => false
  end.

(** The lines "{i}. {record}" of the specification for the records [h], in
    order, the first of them numbered [i]. *)
Fixpoint numberedFrom (i : nat) (h : list string) : list string :=
  match h with
  | [] => []
  | r :: rest => (index_toString i +:+ ". " +:+ r) :: numberedFrom (S i) rest
  end.








(** The integer a double holds, when it holds one. *)
Definition integerValue (a : number) : option Z :=
  match a with
  | S754_zero _ => Some 0
  | S754_finite s m e =>
      if 0 <=? e then Some (cond_Zopp s (Zpos m * 2 ^ e))
      else if Zpos m mod 2 ^ (- e) =? 0
           then Some (cond_Zopp s (Zpos m / 2 ^ (- e)))
           else None
  | _ => None
  end.

(** What [updateHistoryDisplay] writes for a history array. *)
Definition rendered (h : list string) : string :=
  if (length h =? 0)%nat then Web.historyEmpty
  else Web.join (imap Web.historyItem h).

(** The history region of the page shows the history array. *)
Definition displayInSync (p : Web.page) : Prop :=
  Web.historyList_innerHTML p = rendered (Web.calculationHistory p).

(** The question the terminal shows while src/calculator.ts is suspended in
    a state. *)
Definition calculatorQuestion (s : Calculator.state) : list string :=
  match s with
  | Calculator.AwaitOperation => [Calculator.operationPrompt]
  | Calculator.AwaitFirst _ => [Calculator.firstPrompt]
  | Calculator.AwaitSecond _ _ => [Calculator.secondPrompt]
  | Calculator.Closed => []
  end.

(** The line src/index.ts prints and asks after a refused operator. *)
Definition operatorRefused : list event :=
  [ConsoleLog Index.invalidOperation; Question Index.operationPrompt].

(* ===================================================================== *)
(** * Properties                                                          *)
(* ===================================================================== *)

(** ** The run time on examples *)

Example parseFloat_examples :
  map parseFloat
      ["10"; "10abc"; "  -2.5e1x"; ".5"; "5."; "1e"; "-0"; "0.1";
       "1e400"; "abc"; ""; "."; "-"; "Infinit"; "+Infinity!"]
  = [of_Z 10; of_Z 10; of_Z (-25); S754_finite false 4503599627370496 (-53);
     of_Z 5; of_Z 1; neg_zero; S754_finite false 7205759403792794 (-56);
     Infinity; NaN; NaN; NaN; NaN; NaN; Infinity].
Proof. vm_compute. reflexivity. Qed.

Example Number_toString_examples :
  map (fun t => Number_toString (parseFloat t))
      ["10"; "-1.5"; "0.1"; "0.30000000000000004"; "123.456"; "1e21";
       "1e20"; "0.000001"; "1e-7"; "5e-324"; "1.7976931348623157e308";
       "9007199254740993"; "-0"; "x"; "-Infinity"]
  = ["10"; "-1.5"; "0.1"; "0.30000000000000004"; "123.456"; "1e+21";
     "100000000000000000000"; "0.000001"; "1e-7"; "5e-324";
     "1.7976931348623157e+308"; "9007199254740992"; "0"; "NaN"; "-Infinity"].
Proof. vm_compute. reflexivity. Qed.

Example arithmetic_examples :
  Number_toString (add (parseFloat "0.1") (parseFloat "0.2"))
  = "0.30000000000000004"
  /\ Number_toString (multiply (parseFloat "1.1") (parseFloat "1.1"))
     = "1.2100000000000002"
  /\ divide (of_Z 1) (of_Z 3) = Return (parseFloat "0.3333333333333333")
  /\ Number_toString (subtract (of_Z 5) (of_Z 8)) = "-3".
Proof. vm_compute. repeat split. Qed.

Example string_examples :
  trim (toLowerCase "  HiStory ") = "history"
  /\ trim ("  a b" +:+ LF) = "a b"
  /\ toLowerCase "Q" = "q".
Proof. vm_compute. repeat split. Qed.

(** ** The zero check of [divide] *)

(** [b === 0] holds for the two zeros and for nothing else. *)
Lemma strict_eq_zero (b : number) :
  strict_eq b pos_zero = true <-> exists s, b = S754_zero s.
Proof.
  split.
  - destruct b as [s | s | | s m e]; cbn; try discriminate.
    + intros _. now exists s.
    + destruct s; discriminate.
    + destruct s; discriminate.
  - intros [s ->]. reflexivity.
Qed.

Lemma divide_throws (a b : number) :
  strict_eq b pos_zero = true -> divide a b = Throw divisionByZero.
Proof. intros H. unfold divide. now rewrite H. Qed.

Lemma divide_returns (a b : number) :
  strict_eq b pos_zero = false -> divide a b = Return (num_div a b).
Proof. intros H. unfold divide. now rewrite H. Qed.

(** C1. [divide a b] throws the error "Cannot divide by zero!" exactly when
    [b === 0], that is when [b] is one of the two zeros (no tolerance: every
    other divisor, however small, divides); otherwise it returns the
    IEEE-754 quotient [a / b].  In particular [divide a 0] throws for every
    [a], [a = 0] included. *)
Theorem divide_by_zero_iff (a b : number) :
  (divide a b = Throw divisionByZero <-> strict_eq b pos_zero = true)
  /\ ((exists e, divide a b = Throw e) <-> exists s, b = S754_zero s)
  /\ (strict_eq b pos_zero = false -> divide a b = Return (num_div a b))
  /\ divide a pos_zero = Throw divisionByZero
  /\ divide pos_zero pos_zero = Throw divisionByZero.
Proof.
  repeat split; try reflexivity.
  - destruct (strict_eq b pos_zero) eqn:E; [reflexivity |].
    rewrite (divide_returns a b E). discriminate.
  - apply divide_throws.
  - intros [e He]. apply strict_eq_zero.
    destruct (strict_eq b pos_zero) eqn:E; [reflexivity |].
    rewrite (divide_returns a b E) in He. discriminate.
  - intros H. exists divisionByZero. apply divide_throws.
    now apply strict_eq_zero.
  - apply divide_returns.
Qed.

(** The smallest positive double is not zero: dividing by it does not throw
    (the quotient overflows), and an ordinary division returns its
    quotient. *)
Lemma divide_by_zero_iff_witness :
  divide (of_Z 1) (parseFloat "5e-324") = Return Infinity
  /\ divide (of_Z 1) (of_Z 4) = Return (parseFloat "0.25").
Proof.
  split.
  - rewrite (proj1 (proj2 (proj2 (divide_by_zero_iff (of_Z 1) (parseFloat "5e-324")))));
      reflexivity.
  - rewrite (proj1 (proj2 (proj2 (divide_by_zero_iff (of_Z 1) (of_Z 4)))));
      reflexivity.
Defined.

(** C9. Negative zero is a zero divisor: [divide a (-0)] throws for every
    [a], and never returns an infinity. *)
Theorem divide_by_negative_zero (a : number) :
  strict_eq neg_zero pos_zero = true
  /\ divide a neg_zero = Throw divisionByZero
  /\ (forall r, divide a neg_zero <> Return r).
Proof.
  split; [reflexivity |]. split; [reflexivity |].
  intros r. discriminate.
Qed.

(** ** The history changes only on success *)

Lemma compute_throw num1 num2 operation h e :
  Index.dispatch num1 num2 operation = Throw e ->
  Index.compute num1 num2 operation h
  = (h, [ConsoleLog (LF +:+ "Error: " +:+ message e +:+ LF)]).
Proof. intros H. unfold Index.compute. now rewrite H. Qed.

Lemma compute_return num1 num2 operation h r :
  Index.dispatch num1 num2 operation = Return r ->
  Index.compute num1 num2 operation h
  = (h ++ [Index.calculationString num1 operation num2 r],
     [ConsoleLog (LF +:+ "Result: "
                  +:+ Index.calculationString num1 operation num2 r +:+ LF)]).
Proof. intros H. unfold Index.compute. now rewrite H. Qed.

(** The only error the dispatch of src/index.ts throws is the division by
    zero, and it throws it only for a zero divisor. *)
Lemma dispatch_throws num1 num2 operation e :
  Index.dispatch num1 num2 operation = Throw e ->
  e = divisionByZero /\ strict_eq num2 pos_zero = true.
Proof.
  unfold Index.dispatch, divide.
  repeat (destruct (String.eqb operation _); [discriminate |]).
  destruct (strict_eq num2 pos_zero); [| discriminate].
  intros [= <-]. now split.
Qed.

(** In src/index.ts a line typed at an operand or operator question either
    leaves the history as it is, or completes a calculation whose result is
    appended. *)
Lemma performCalculation_history s answer h :
  historyAfter (Index.performCalculation s answer h) = h
  \/ exists num1 num2 r,
       s = Index.AwaitOperator num1 num2
       /\ Index.dispatch num1 num2 answer = Return r
       /\ historyAfter (Index.performCalculation s answer h)
          = h ++ [Index.calculationString num1 answer num2 r].
Proof.
  destruct s as [| num1 | num1 num2 | |]; unfold Index.performCalculation.
  - destruct (Index.isValidNumber answer); now left.
  - destruct (Index.isValidNumber answer); now left.
  - destruct (Index.isValidOperation answer); [| now left].
    destruct (Index.dispatch num1 num2 answer) as [r | e] eqn:E.
    + right. exists num1, num2, r. unfold Index.compute. rewrite E.
      repeat split; reflexivity.
    + left. unfold Index.compute. now rewrite E.
  - now left.
  - now left.
Qed.

(** C2. A failed attempt leaves the history untouched.  Terminal
    (src/index.ts): when the dispatch throws, and when an operand or the
    operator is refused, the history after the line is the history before
    it; a returned result is appended at the end.  Web (web/app.js): when an
    operand parses to NaN, and when the calculation throws, the history
    after [handleCalculate] is the history before it; a returned result is
    appended at the end. *)
Theorem failed_calculation_keeps_history :
  (forall num1 num2 operation h e,
      Index.dispatch num1 num2 operation = Throw e ->
      fst (Index.compute num1 num2 operation h) = h)
  /\ (forall num1 num2 operation h,
      Index.isValidOperation operation = true ->
      (exists e, Index.dispatch num1 num2 operation = Throw e) ->
      historyAfter (Index.main (Index.AwaitOperator num1 num2) operation h) = h)
  /\ (forall s answer h,
      (s = Index.AwaitOperand1 \/ exists num1, s = Index.AwaitOperand2 num1) ->
      Index.isValidNumber answer = false ->
      historyAfter (Index.main s answer h) = h)
  /\ (forall num1 num2 answer h,
      Index.isValidOperation answer = false ->
      historyAfter (Index.main (Index.AwaitOperator num1 num2) answer h) = h)
  /\ (forall num1 num2 operation h r,
      Index.dispatch num1 num2 operation = Return r ->
      fst (Index.compute num1 num2 operation h)
      = h ++ [Index.calculationString num1 operation num2 r])
  /\ (forall p,
      isNaN (parseFloat (Web.num1_value p))
      || isNaN (parseFloat (Web.num2_value p)) = true ->
      Web.calculationHistory (Web.handleCalculate p) = Web.calculationHistory p)
  /\ (forall p e,
      Web.performCalculation (parseFloat (Web.num1_value p))
        (parseFloat (Web.num2_value p)) (Web.operation_value p) = Throw e ->
      Web.calculationHistory (Web.handleCalculate p) = Web.calculationHistory p)
  /\ (forall p r,
      isNaN (parseFloat (Web.num1_value p))
      || isNaN (parseFloat (Web.num2_value p)) = false ->
      Web.performCalculation (parseFloat (Web.num1_value p))
        (parseFloat (Web.num2_value p)) (Web.operation_value p) = Return r ->
      exists calc,
        Web.calculationHistory (Web.handleCalculate p)
        = Web.calculationHistory p ++ [calc]).
Proof.
  repeat apply conj.
  - intros * H. now rewrite (compute_throw _ _ _ _ _ H).
  - intros * Hv [e H]. cbn. rewrite Hv.
    now rewrite (compute_throw _ _ _ _ _ H).
  - intros s answer h [-> | [num1 ->]] Hv; cbn; now rewrite Hv.
  - intros * Hv. cbn. now rewrite Hv.
  - intros * H. now rewrite (compute_return _ _ _ _ _ H).
  - intros p H. unfold Web.handleCalculate. now rewrite H.
  - intros p e H. unfold Web.handleCalculate.
    destruct (isNaN _ || isNaN _); [reflexivity |]. now rewrite H.
  - intros p r Hn H. unfold Web.handleCalculate. rewrite Hn, H.
    eexists. unfold Web.addToHistory, Web.updateHistoryDisplay. cbn.
    destruct (_ =? _)%nat; reflexivity.
Qed.

(** Eight divided by zero, after one successful calculation: the history
    keeps its single record in the terminal and on the page; so does it when
    an operand is not a number. *)
Lemma failed_calculation_keeps_history_witness :
  fst (Index.compute (of_Z 8) (of_Z 0) "/" ["10 + 5 = 15"]) = ["10 + 5 = 15"]
  /\ historyAfter (Index.main Index.AwaitOperand1 "abc" ["10 + 5 = 15"])
     = ["10 + 5 = 15"]
  /\ Web.calculationHistory
       (Web.handleCalculate
          (Web.mkPage "8" "0" "/" "" "result" "" ["10 + 5 = 15"]))
     = ["10 + 5 = 15"]
  /\ Web.calculationHistory
       (Web.handleCalculate
          (Web.mkPage "8" "x" "/" "" "result" "" ["10 + 5 = 15"]))
     = ["10 + 5 = 15"].
Proof.
  destruct failed_calculation_keeps_history
    as (T1 & _ & T3 & _ & _ & W1 & W2 & _).
  repeat apply conj.
  - apply (T1 _ _ _ _ divisionByZero). reflexivity.
  - apply T3; [now left | reflexivity].
  - exact (W2 (Web.mkPage "8" "0" "/" "" "result" "" ["10 + 5 = 15"])
              divisionByZero eq_refl).
  - exact (W1 (Web.mkPage "8" "x" "/" "" "result" "" ["10 + 5 = 15"]) eq_refl).
Defined.

(** ** Operands that do not parse *)

Lemma isValidNumber_isNaN answer :
  Index.isValidNumber answer = negb (isNaN (parseFloat answer)).
Proof. reflexivity. Qed.

(** In src/index.ts any number of lines that parse to NaN leave the program
    at the first-operand question. *)
Lemma run_stays_at_operand1 answers h shown :
  Forall (fun a => isNaN (parseFloat a) = true) answers ->
  stateAfter (Index.run (Index.AwaitOperand1, h, shown) answers)
  = Index.AwaitOperand1.
Proof.
  intros H. revert shown.
  induction H as [| a answers Ha _ IH]; intros shown; [reflexivity |].
  cbn. rewrite isValidNumber_isNaN, Ha. cbn. apply IH.
Qed.

(** The same at the second-operand question, the first operand kept. *)
Lemma run_stays_at_operand2 answers num1 h shown :
  Forall (fun a => isNaN (parseFloat a) = true) answers ->
  stateAfter (Index.run (Index.AwaitOperand2 num1, h, shown) answers)
  = Index.AwaitOperand2 num1.
Proof.
  intros H. revert shown.
  induction H as [| a answers Ha _ IH]; intros shown; [reflexivity |].
  cbn. rewrite isValidNumber_isNaN, Ha. cbn. apply IH.
Qed.

(** C5 (amended). In src/index.ts an operand line that parses to NaN prints
    the error message and asks the same question again, the state and the
    history unchanged, however often it happens; a line that parses to a
    number advances with that number, and ["10abc"] parses to 10.  In
    src/calculator.ts an operand line that parses to NaN prints an error
    message and goes back to the operator question. *)
Theorem operand_reprompt :
  (forall answer h,
      isNaN (parseFloat answer) = true ->
      Index.main Index.AwaitOperand1 answer h
      = (Index.AwaitOperand1, h,
         [ConsoleLog Index.invalidNumber; Question Index.firstPrompt])
      /\ forall num1,
          Index.main (Index.AwaitOperand2 num1) answer h
          = (Index.AwaitOperand2 num1, h,
             [ConsoleLog Index.invalidNumber; Question Index.secondPrompt]))
  /\ (forall answers h shown,
      Forall (fun a => isNaN (parseFloat a) = true) answers ->
      stateAfter (Index.run (Index.AwaitOperand1, h, shown) answers)
      = Index.AwaitOperand1
      /\ forall num1,
          stateAfter (Index.run (Index.AwaitOperand2 num1, h, shown) answers)
          = Index.AwaitOperand2 num1)
  /\ (forall answer h,
      isNaN (parseFloat answer) = false ->
      Index.main Index.AwaitOperand1 answer h
      = (Index.AwaitOperand2 (parseFloat answer), h,
         [Question Index.secondPrompt])
      /\ forall num1,
          Index.main (Index.AwaitOperand2 num1) answer h
          = (Index.AwaitOperator num1 (parseFloat answer), h,
             [Question Index.operationPrompt]))
  /\ parseFloat "10abc" = of_Z 10
  /\ (forall h,
      Index.main Index.AwaitOperand1 "10abc" h
      = (Index.AwaitOperand2 (of_Z 10), h, [Question Index.secondPrompt]))
  /\ (forall operation answer,
      isNaN (parseFloat answer) = true ->
      Calculator.calculator (Calculator.AwaitFirst operation) answer
      = (Calculator.AwaitOperation,
         [ConsoleLog Calculator.invalidNumber;
          Question Calculator.operationPrompt])
      /\ forall num1,
          Calculator.calculator (Calculator.AwaitSecond operation num1) answer
          = (Calculator.AwaitOperation,
             [ConsoleLog Calculator.invalidNumber;
              Question Calculator.operationPrompt])).
Proof.
  repeat apply conj.
  - intros answer h H. cbn. rewrite isValidNumber_isNaN, H. now split.
  - intros answers h shown H. split.
    + now apply run_stays_at_operand1.
    + intros num1. now apply run_stays_at_operand2.
  - intros answer h H. cbn. rewrite isValidNumber_isNaN, H. now split.
  - reflexivity.
  - intros h. reflexivity.
  - intros operation answer H. cbn. rewrite H. now split.
Qed.

Lemma operand_reprompt_witness :
  Index.main Index.AwaitOperand1 "abc" []
  = (Index.AwaitOperand1, [],
     [ConsoleLog Index.invalidNumber; Question Index.firstPrompt])
  /\ stateAfter (Index.run (Index.AwaitOperand2 (of_Z 10), [], [])
                   ["abc"; ""; "e5"; "."])
     = Index.AwaitOperand2 (of_Z 10)
  /\ Index.main Index.AwaitOperand1 "5" []
     = (Index.AwaitOperand2 (parseFloat "5"), [], [Question Index.secondPrompt])
  /\ Calculator.calculator (Calculator.AwaitFirst "+") "abc"
     = (Calculator.AwaitOperation,
        [ConsoleLog Calculator.invalidNumber;
         Question Calculator.operationPrompt]).
Proof.
  destruct operand_reprompt as (T1 & T2 & T3 & _ & _ & T6).
  repeat apply conj.
  - apply (T1 "abc" []). reflexivity.
  - apply (T2 ["abc"; ""; "e5"; "."] [] []).
    repeat constructor.
  - apply (T3 "5" []). reflexivity.
  - apply (T6 "+" "abc"). reflexivity.
Defined.

(** C5, as stated, fails on src/calculator.ts: at the first-operand question
    of an addition the line ["abc"] parses to NaN, and the program moves to
    the operator question instead of asking for the first operand again. *)
Lemma operand_reprompt_counterexample :
  isNaN (parseFloat "abc") = true
  /\ fst (Calculator.calculator (Calculator.AwaitFirst "+") "abc")
     <> Calculator.AwaitFirst "+"
  /\ questions (snd (Calculator.calculator (Calculator.AwaitFirst "+") "abc"))
     = ["Enter operation (+, -, *, /, or q to quit): "]
  /\ ~ (forall operation answer,
         isNaN (parseFloat answer) = true ->
         fst (Calculator.calculator (Calculator.AwaitFirst operation) answer)
         = Calculator.AwaitFirst operation).
Proof.
  repeat apply conj; try reflexivity.
  - discriminate.
  - intros H. specialize (H "+" "abc" eq_refl). discriminate.
Qed.

(** ** The order of the prompts *)

Lemma questions_app es1 es2 :
  questions (es1 ++ es2) = questions es1 ++ questions es2.
Proof.
  induction es1 as [| e es1 IH]; [reflexivity |].
  destruct e; cbn; now rewrite IH.
Qed.

Lemma questions_ConsoleLog (ts : list string) :
  questions (map ConsoleLog ts) = [].
Proof. induction ts as [| t ts IH]; [reflexivity | exact IH]. Qed.

Lemma imap_ConsoleLog (f : nat -> string -> string) (h : list string) :
  imap (fun index calc => ConsoleLog (f index calc)) h
  = map ConsoleLog (imap f h).
Proof.
  revert f. induction h as [| x h IH]; intros f; [reflexivity |].
  cbn. f_equal. apply IH.
Qed.

Lemma questions_showHistory h : questions (Index.showHistory h) = [].
Proof.
  unfold Index.showHistory. destruct (_ =? _)%nat; [reflexivity |].
  cbn. rewrite questions_app, imap_ConsoleLog, questions_ConsoleLog.
  reflexivity.
Qed.

Lemma questions_compute num1 num2 operation h :
  questions (snd (Index.compute num1 num2 operation h)) = [].
Proof.
  unfold Index.compute. now destruct (Index.dispatch num1 num2 operation).
Qed.

(** Each line typed makes src/index.ts ask exactly the question of the state
    it moves to, and that state is the same or the next in order. *)
Lemma main_asks_next s answer h :
  let c := Index.main s answer h in
  questions (snd c) = pendingQuestion (stateAfter c)
  /\ follows s (stateAfter c).
Proof.
  destruct s as [| num1 | num1 num2 | |]; cbn.
  - destruct (Index.isValidNumber answer); cbn; eauto.
  - destruct (Index.isValidNumber answer); cbn; eauto.
  - destruct (Index.isValidOperation answer); cbn; [| eauto].
    pose proof (questions_compute num1 num2 answer h) as Q.
    destruct (Index.compute num1 num2 answer h) as [h' printed]. cbn in *.
    rewrite questions_app, Q. eauto.
  - destruct (String.eqb _ "history").
    { cbn. rewrite questions_app, questions_showHistory. eauto. }
    destruct (String.eqb _ "clear"); [cbn; eauto |].
    destruct (Index.wantsToQuit answer); cbn; eauto.
  - eauto.
Qed.

(** C6 (amended). src/index.ts asks, in this order, "Enter the first
    number: ", "Enter the second number: ", "Enter the operation
    (+, -, *, /): " and then the continuation prompt; on any line it asks
    exactly the question of the state it moves to, and the states follow
    one another in that order.  src/calculator.ts asks the operator first,
    "Enter operation (+, -, *, /, or q to quit): ", then "Enter first
    number: ", then "Enter second number: ", and has no continuation
    prompt. *)
Theorem prompt_order :
  (forall a1 a2 operation,
      Index.isValidNumber a1 = true ->
      Index.isValidNumber a2 = true ->
      Index.isValidOperation operation = true ->
      questions (snd (Index.run Index.start [a1; a2; operation]))
      = ["Enter the first number: "; "Enter the second number: ";
         "Enter the operation (+, -, *, /): "; Index.continuePrompt]
      /\ stateAfter (Index.run Index.start [a1; a2; operation])
         = Index.AwaitContinuation)
  /\ (forall s answer h,
      questions (snd (Index.main s answer h))
      = pendingQuestion (stateAfter (Index.main s answer h))
      /\ follows s (stateAfter (Index.main s answer h)))
  /\ (forall operation a1 a2,
      Calculator.includes operation = true ->
      isNaN (parseFloat a1) = false ->
      isNaN (parseFloat a2) = false ->
      questions (snd (Calculator.run Calculator.start [operation; a1; a2]))
      = ["Enter operation (+, -, *, /, or q to quit): ";
         "Enter first number: "; "Enter second number: ";
         "Enter operation (+, -, *, /, or q to quit): "]).
Proof.
  repeat apply conj.
  - intros a1 a2 operation H1 H2 H3. cbn. rewrite H1. cbn. rewrite H2. cbn.
    rewrite H3.
    pose proof (questions_compute (parseFloat a1) (parseFloat a2) operation [])
      as Q.
    destruct (Index.compute _ _ operation []) as [h' printed]. cbn in *.
    rewrite questions_app, Q. split; reflexivity.
  - intros s answer h. apply (main_asks_next s answer h).
  - intros operation a1 a2 H1 H2 H3. cbn.
    assert (Hq : String.eqb (toLowerCase operation) "q" = false).
    { unfold Calculator.includes in H1.
      destruct (String.eqb_spec operation "+") as [-> |]; [reflexivity |].
      destruct (String.eqb_spec operation "-") as [-> |]; [reflexivity |].
      destruct (String.eqb_spec operation "*") as [-> |]; [reflexivity |].
      destruct (String.eqb_spec operation "/") as [-> |]; [reflexivity |].
      discriminate. }
    rewrite Hq, H1. cbn. rewrite H2. cbn. rewrite H3.
    destruct (Calculator.dispatch _ _ operation); reflexivity.
Qed.

Lemma prompt_order_witness :
  questions (snd (Index.run Index.start ["10"; "5"; "+"]))
  = ["Enter the first number: "; "Enter the second number: ";
     "Enter the operation (+, -, *, /): "; Index.continuePrompt]
  /\ questions (snd (Calculator.run Calculator.start ["+"; "10"; "5"]))
     = ["Enter operation (+, -, *, /, or q to quit): ";
        "Enter first number: "; "Enter second number: ";
        "Enter operation (+, -, *, /, or q to quit): "].
Proof.
  destruct prompt_order as (T1 & _ & T3).
  split.
  - apply (T1 "10" "5" "+"); reflexivity.
  - apply (T3 "+" "10" "5"); reflexivity.
Defined.

(** C6, as stated, fails on src/calculator.ts: its first question is the
    operator question, with another text, and the operands come after
    it. *)
Lemma prompt_order_counterexample :
  questions (snd (Calculator.run Calculator.start ["+"; "10"; "5"]))
  <> ["Enter the first number: "; "Enter the second number: ";
      "Enter the operation (+, -, *, /): "]
  /\ questions (snd Calculator.start)
     = ["Enter operation (+, -, *, /, or q to quit): "]
  /\ stateAfter (Index.run Index.start ["+"]) = Index.AwaitOperand1
  /\ fst (Calculator.run Calculator.start ["+"]) = Calculator.AwaitFirst "+".
Proof.
  repeat apply conj; try reflexivity. discriminate.
Qed.

(** ** The continuation prompt *)

Lemma wantsToQuit_tokens answer :
  Index.wantsToQuit answer = true
  <-> trim (toLowerCase answer) = "q" \/ trim (toLowerCase answer) = "quit"
      \/ trim (toLowerCase answer) = "no".
Proof.
  unfold Index.wantsToQuit. cbv zeta.
  rewrite !orb_true_iff, !String.eqb_eq. tauto.
Qed.

(** Once the loop of [main] is left no line is read any more. *)
Lemma run_Exited h shown answers :
  Index.run (Index.Exited, h, shown) answers = (Index.Exited, h, shown).
Proof.
  revert shown. induction answers as [| a answers IH]; intros shown;
    [reflexivity |].
  cbn. rewrite app_nil_r. apply IH.
Qed.

(** ** Ten plus five *)

(** C8 (amended). With operator "+" and operands 10 and 5 the calculation
    returns 15.  src/index.ts prints the line "Result: 10 + 5 = 15" (between
    two line feeds) and its history, empty before, becomes the single record
    "10 + 5 = 15", shown by [showHistory] as "1. 10 + 5 = 15".  web/app.js
    displays "10 + 5 = 15", without "Result: ", and its history, empty
    before, becomes the same single record, shown as the item
    "1. 10 + 5 = 15". *)
Theorem ten_plus_five :
  Index.dispatch (parseFloat "10") (parseFloat "5") "+" = Return (of_Z 15)
  /\ Index.run Index.start ["10"; "5"; "+"]
     = (Index.AwaitContinuation, ["10 + 5 = 15"],
        [ConsoleLog ("=== Terminal Calculator ===" +:+ LF);
         Question "Enter the first number: ";
         Question "Enter the second number: ";
         Question "Enter the operation (+, -, *, /): ";
         ConsoleLog (LF +:+ "Result: 10 + 5 = 15" +:+ LF);
         Question Index.continuePrompt])
  /\ Index.showHistory ["10 + 5 = 15"]
     = [ConsoleLog (LF +:+ "=== Calculation History ===");
        ConsoleLog "1. 10 + 5 = 15";
        ConsoleLog ""]
  /\ Web.performCalculation (parseFloat "10") (parseFloat "5") "+"
     = Return (of_Z 15)
  /\ Web.result_textContent (Web.handleCalculate tenPlusFive) = "10 + 5 = 15"
  /\ Web.result_className (Web.handleCalculate tenPlusFive) = "result"
  /\ Web.calculationHistory (Web.handleCalculate tenPlusFive) = ["10 + 5 = 15"]
  /\ Web.historyList_innerHTML (Web.handleCalculate tenPlusFive)
     = "<div class=" +:+ DQ +:+ "history-item" +:+ DQ +:+ ">"
       +:+ "1. 10 + 5 = 15" +:+ "</div>".
Proof. repeat apply conj; vm_compute; reflexivity. Qed.

(** C8, as stated, fails on web/app.js: for "+", 10 and 5 the text it
    displays is not "Result: 10 + 5 = 15". *)
Lemma ten_plus_five_counterexample :
  Web.result_textContent (Web.handleCalculate tenPlusFive)
  <> "Result: 10 + 5 = 15".
Proof. vm_compute. discriminate. Qed.

(** ** Operands that are not finite *)

(** C10. [isValidNumber] refuses a line exactly when it parses to NaN.
    "Infinity" and "-Infinity" are accepted, parse to the two infinities,
    and go through the operand questions into the arithmetic: the product
    of the two is computed, printed and recorded. *)
Theorem non_finite_operands_accepted :
  (forall input, Index.isValidNumber input = false <-> parseFloat input = NaN)
  /\ Index.isValidNumber "Infinity" = true
  /\ Index.isValidNumber "-Infinity" = true
  /\ parseFloat "Infinity" = Infinity
  /\ parseFloat "-Infinity" = neg_Infinity
  /\ (forall h,
      Index.main Index.AwaitOperand1 "Infinity" h
      = (Index.AwaitOperand2 Infinity, h, [Question Index.secondPrompt]))
  /\ (forall h num1,
      Index.main (Index.AwaitOperand2 num1) "-Infinity" h
      = (Index.AwaitOperator num1 neg_Infinity, h,
         [Question Index.operationPrompt]))
  /\ Index.dispatch Infinity neg_Infinity "*" = Return neg_Infinity
  /\ (forall h,
      Index.run (Index.AwaitOperand1, h, []) ["Infinity"; "-Infinity"; "*"]
      = (Index.AwaitContinuation, h ++ ["Infinity * -Infinity = -Infinity"],
         [Question Index.secondPrompt; Question Index.operationPrompt;
          ConsoleLog (LF +:+ "Result: Infinity * -Infinity = -Infinity" +:+ LF);
          Question Index.continuePrompt])).
Proof.
  repeat apply conj; try reflexivity.
  intros input. unfold Index.isValidNumber, NaN. cbv zeta. split.
  - destruct (parseFloat input); cbn; (reflexivity || discriminate).
  - intros ->. reflexivity.
Qed.

(** ** Rendering the history *)

(** A whole session of src/index.ts: two calculations with a division by
    zero between them, then "history" at the continuation prompt; and what
    is asked after "clear" and a refused operand. *)
Example session_example :
  Index.run Index.start
    ["10"; "5"; "+"; ""; "8"; "0"; "/"; ""; "3"; "0.5"; "/"; "history"]
  = (Index.AwaitOperand1, ["10 + 5 = 15"; "3 / 0.5 = 6"],
     [ConsoleLog ("=== Terminal Calculator ===" +:+ LF);
      Question Index.firstPrompt; Question Index.secondPrompt;
      Question Index.operationPrompt;
      ConsoleLog (LF +:+ "Result: 10 + 5 = 15" +:+ LF);
      Question Index.continuePrompt; ConsoleLog "";
      Question Index.firstPrompt; Question Index.secondPrompt;
      Question Index.operationPrompt;
      ConsoleLog (LF +:+ "Error: Cannot divide by zero!" +:+ LF);
      Question Index.continuePrompt; ConsoleLog "";
      Question Index.firstPrompt; Question Index.secondPrompt;
      Question Index.operationPrompt;
      ConsoleLog (LF +:+ "Result: 3 / 0.5 = 6" +:+ LF);
      Question Index.continuePrompt;
      ConsoleLog (LF +:+ "=== Calculation History ===");
      ConsoleLog "1. 10 + 5 = 15"; ConsoleLog "2. 3 / 0.5 = 6"; ConsoleLog "";
      Question Index.firstPrompt])
  /\ questions
       (snd (Index.run (Index.AwaitContinuation, ["10 + 5 = 15"], [])
               ["clear"; "1"; "x"; "1"; "+"; "history"]))
     = [Index.firstPrompt; Index.secondPrompt; Index.secondPrompt;
        Index.operationPrompt; Index.continuePrompt; Index.firstPrompt].
Proof. split; vm_compute; reflexivity. Qed.


(** On array indices the numeral is what Number::toString gives (checked
    here for the first thousand indices). *)
Lemma index_toString_Number_toString :
  forallb (fun i => String.eqb (Number_toString (of_Z (Z.of_nat i)))
                               (index_toString i))
          (seq 0 1000) = true.
Proof. vm_compute. reflexivity. Qed.


Lemma showHistory_nonempty h :
  h <> [] ->
  Index.showHistory h
  = [ConsoleLog (LF +:+ "=== Calculation History ===")]
    ++ map ConsoleLog (imap Index.historyLine h) ++ [ConsoleLog ""].
Proof.
  intros H. unfold Index.showHistory.
  destruct h as [| x h]; [congruence |].
  cbn [length Nat.eqb]. now rewrite imap_ConsoleLog.
Qed.

Lemma historyLine_lookup h i calc :
  h !! i = Some calc ->
  imap Index.historyLine h !! i
  = Some (index_toString (i + 1) +:+ ". " +:+ calc).
Proof. intros H. now rewrite list_lookup_imap, H. Qed.

Lemma historyItem_lookup h i calc :
  h !! i = Some calc ->
  imap Web.historyItem h !! i
  = Some ("<div class=" +:+ DQ +:+ "history-item" +:+ DQ +:+ ">"
          +:+ index_toString (i + 1) +:+ ". " +:+ calc +:+ "</div>").
Proof. intros H. now rewrite list_lookup_imap, H. Qed.

(** ** Adding and subtracting back

    Facts on the rounding of SpecFloat that the sums of integers need. *)

Section FloatFacts.
Variables prec emax : Z.

Lemma iter_pos_iter {A} (f : A -> A) (n : positive) (x : A) :
  SpecFloat.iter_pos f n x = Pos.iter f x n.
Proof.
  revert x. induction n as [n IH | n IH |]; intros x; cbn.
  - rewrite !IH. now rewrite <- !Pos.iter_swap.
  - now rewrite !IH.
  - reflexivity.
Qed.

Lemma digits2_pos_shift (m d : positive) :
  digits2_pos (Pos.iter xO m d) = (digits2_pos m + d)%positive.
Proof.
  induction d as [| d IH] using Pos.peano_ind.
  - cbn. lia.
  - rewrite Pos.iter_succ. cbn. rewrite IH. lia.
Qed.

Lemma shift_value (m d : positive) :
  Zpos (Pos.iter xO m d) = Zpos m * 2 ^ Zpos d.
Proof.
  induction d as [| d IH] using Pos.peano_ind.
  - cbn. lia.
  - rewrite Pos.iter_succ, Pos2Z.inj_succ, Z.pow_succ_r by lia.
    rewrite Pos2Z.inj_xO, IH. ring.
Qed.

Lemma shr_shifted (m d : positive) :
  Pos.iter shr_1 (Build_shr_record (Zpos (Pos.iter xO m d)) false false) d
  = Build_shr_record (Zpos m) false false.
Proof.
  induction d as [| d IH] using Pos.peano_ind.
  - reflexivity.
  - rewrite Pos.iter_succ, <- Pos.iter_swap, Pos.iter_succ. cbn. exact IH.
Qed.

Lemma binary_round_aux_shr s m e l m' e' l' :
  shr_fexp prec emax m e l = shr_fexp prec emax m' e' l' ->
  binary_round_aux prec emax s m e l = binary_round_aux prec emax s m' e' l'.
Proof. intros H. unfold binary_round_aux. now rewrite H. Qed.

(** Rounding sees the value only: a mantissa shifted left with the exponent
    lowered as much rounds to the same double. *)
Lemma binary_round_shift s (m d : positive) (e : Z) :
  binary_round prec emax s (Pos.iter xO m d) (e - Zpos d)
  = binary_round prec emax s m e.
Proof.
  unfold binary_round.
  rewrite digits2_pos_shift.
  replace (Zpos (digits2_pos m + d) + (e - Zpos d))
    with (Zpos (digits2_pos m) + e) by lia.
  set (f := fexp prec emax (Zpos (digits2_pos m) + e)).
  unfold shl_align.
  destruct (f - (e - Zpos d)) as [| k' | k'] eqn:E1;
  destruct (f - e) as [| k | k] eqn:E2; try lia.
  - (* f = e - d *)
    assert (k = d) by lia. subst k. now replace f with (e - Zpos d) by lia.
  - (* e - d < f = e *)
    apply binary_round_aux_shr. unfold shr_fexp. cbn [Zdigits2].
    rewrite digits2_pos_shift.
    replace (Zpos (digits2_pos m + d) + (e - Zpos d))
      with (Zpos (digits2_pos m) + e) by lia.
    fold f. rewrite E1, E2. cbn [shr shr_record_of_loc].
    assert (k' = d) by lia. subst k'.
    rewrite iter_pos_iter, shr_shifted. f_equal. lia.
  - (* e < f *)
    apply binary_round_aux_shr. unfold shr_fexp. cbn [Zdigits2].
    rewrite digits2_pos_shift.
    replace (Zpos (digits2_pos m + d) + (e - Zpos d))
      with (Zpos (digits2_pos m) + e) by lia.
    fold f. rewrite E1, E2. cbn [shr shr_record_of_loc].
    assert (k' = (k + d)%positive) by lia. subst k'.
    rewrite !iter_pos_iter, Pos.iter_add, shr_shifted. f_equal. lia.
  - (* e - d < f < e *)
    assert (d = (k' + k)%positive) by lia. subst d.
    apply binary_round_aux_shr. unfold shr_fexp. cbn [Zdigits2].
    rewrite !digits2_pos_shift.
    replace (Zpos (digits2_pos m + (k' + k)) + (e - Zpos (k' + k)))
      with (Zpos (digits2_pos m) + e) by lia.
    replace (Zpos (digits2_pos m + k) + f)
      with (Zpos (digits2_pos m) + e) by lia.
    fold f. rewrite E1, Z.sub_diag. cbn [shr shr_record_of_loc].
    rewrite iter_pos_iter, Pos.iter_add, shr_shifted. f_equal. lia.
  - (* f < e - d *)
    assert (k = (k' + d)%positive) by lia. subst k.
    now rewrite Pos.iter_add.
Qed.

End FloatFacts.

Lemma digits2_pos_bounds (p : positive) :
  2 ^ (Zpos (digits2_pos p) - 1) <= Zpos p < 2 ^ Zpos (digits2_pos p).
Proof.
  induction p as [p IH | p IH |]; cbn [digits2_pos].
  - rewrite Pos2Z.inj_succ, (Pos2Z.inj_xI p).
    replace (Z.succ (Zpos (digits2_pos p)) - 1)
      with (Z.succ (Zpos (digits2_pos p) - 1)) by lia.
    rewrite !Z.pow_succ_r by lia. lia.
  - rewrite Pos2Z.inj_succ, (Pos2Z.inj_xO p).
    replace (Z.succ (Zpos (digits2_pos p)) - 1)
      with (Z.succ (Zpos (digits2_pos p) - 1)) by lia.
    rewrite !Z.pow_succ_r by lia. lia.
  - cbn. lia.
Qed.

Lemma digits2_pos_safe (p : positive) :
  Zpos p < 2 ^ 53 -> Zpos (digits2_pos p) <= 53.
Proof.
  intros H. destruct (Z_le_gt_dec (Zpos (digits2_pos p)) 53) as [L | G];
    [exact L |].
  pose proof (digits2_pos_bounds p) as [B _].
  assert (2 ^ 53 <= 2 ^ (Zpos (digits2_pos p) - 1))
    by (apply Z.pow_le_mono_r; lia).
  lia.
Qed.

(** A mantissa already in canonical position is kept as it is. *)
Lemma binary_round_aux_canonical s (m : positive) (e : Z) :
  fexp prec emax (Zpos (digits2_pos m) + e) = e ->
  e <= emax - prec ->
  binary_round_aux prec emax s (Zpos m) e loc_Exact = S754_finite s m e.
Proof.
  intros Hf He. unfold binary_round_aux, shr_fexp. cbn [Zdigits2].
  rewrite Hf, Z.sub_diag.
  cbn [shr shr_record_of_loc shr_m loc_of_shr_record round_nearest_even Zdigits2].
  rewrite Hf, Z.sub_diag.
  cbn [shr shr_record_of_loc shr_m].
  destruct (e <=? emax - prec) eqn:L; [reflexivity | lia].
Qed.

Lemma shl_align_spec (m : positive) (e e' : Z) :
  e' <= e ->
  snd (shl_align m e e') = e'
  /\ Zpos (fst (shl_align m e e')) = Zpos m * 2 ^ (e - e').
Proof.
  intros H. unfold shl_align.
  destruct (e' - e) as [| k | k] eqn:E; try lia; cbn [fst snd].
  - replace (e - e') with 0 by lia. lia.
  - rewrite shift_value. replace (e - e') with (Zpos k) by lia. lia.
Qed.

(** The double of a positive integer below 2^53 holds it exactly. *)
Lemma binary_round_safe (p : positive) :
  Zpos p < 2 ^ 53 ->
  exists m e,
    (forall s, binary_round prec emax s p 0 = S754_finite s m e)
    /\ e <= 0 /\ Zpos m = Zpos p * 2 ^ (- e).
Proof.
  intros H. pose proof (digits2_pos_safe p H) as D.
  unfold binary_round.
  set (f := fexp prec emax (Zpos (digits2_pos p) + 0)).
  assert (Ef : f = Zpos (digits2_pos p) - 53).
  { unfold f, fexp, emin, prec, emax. lia. }
  destruct (shl_align_spec p 0 f ltac:(lia)) as [S1 S2].
  destruct (shl_align p 0 f) as [mz ez] eqn:A. cbn in S1, S2. subst ez.
  exists mz, f. split; [| split; [lia | rewrite S2; now replace (0 - f) with (- f) by lia]].
  intros s. apply binary_round_aux_canonical; [| unfold emax, prec; lia].
  assert (Dz : Zpos (digits2_pos mz) = 53).
  { unfold shl_align in A. destruct (f - 0) as [| k | k] eqn:E.
    - inversion A; subst. lia.
    - lia.
    - inversion A; subst. rewrite digits2_pos_shift. lia. }
  rewrite Dz. unfold fexp, emin, prec, emax. lia.
Qed.

Lemma of_Z_safe (z : Z) :
  z <> 0 -> Z.abs z < 2 ^ 53 ->
  exists m e,
    of_Z z = S754_finite (z <? 0) m e
    /\ e <= 0 /\ Zpos m = Z.abs z * 2 ^ (- e).
Proof.
  intros Hz Hb. destruct z as [| p | p]; [congruence | |];
    destruct (binary_round_safe p Hb) as (m & e & R & B);
    exists m, e; (split; [apply R | exact B]).
Qed.

Lemma binary_normalize_shift (z k : Z) :
  0 <= k ->
  binary_normalize prec emax (z * 2 ^ k) (- k) false = of_Z z.
Proof.
  intros Hk. destruct k as [| d | d]; [| | lia].
  - now rewrite Z.mul_1_r.
  - destruct z as [| p | p]; [reflexivity | |].
    + replace (Zpos p * 2 ^ Zpos d) with (Zpos (Pos.iter xO p d))
        by apply shift_value.
      apply (binary_round_shift prec emax false p d 0).
    + replace (Zneg p * 2 ^ Zpos d) with (Zneg (Pos.iter xO p d))
        by (rewrite <- !Pos2Z.opp_pos, shift_value; ring).
      apply (binary_round_shift prec emax true p d 0).
Qed.

Lemma aligned_value (z : Z) (m : positive) (e ez : Z) :
  e <= 0 -> ez <= e -> Zpos m = Z.abs z * 2 ^ (- e) ->
  cond_Zopp (z <? 0) (Zpos (fst (shl_align m e ez))) = z * 2 ^ (- ez).
Proof.
  intros He Hz Hm.
  destruct (shl_align_spec m e ez Hz) as [_ ->]. rewrite Hm.
  rewrite <- Z.mul_assoc, <- Z.pow_add_r by lia.
  replace (- e + (e - ez)) with (- ez) by lia.
  unfold cond_Zopp. destruct (Z.ltb_spec z 0).
  - rewrite Z.abs_neq by lia. ring.
  - rewrite Z.abs_eq by lia. ring.
Qed.

(** The sum of two safe integers is the double nearest to their exact
    sum. *)
Lemma SFadd_safe (x y : Z) :
  Z.abs x < 2 ^ 53 -> Z.abs y < 2 ^ 53 ->
  num_add (of_Z x) (of_Z y) = of_Z (x + y).
Proof.
  intros Hx Hy.
  destruct (Z.eq_dec x 0) as [-> | Nx]; destruct (Z.eq_dec y 0) as [-> | Ny].
  - reflexivity.
  - destruct (of_Z_safe y Ny Hy) as (m & e & E & _).
    rewrite Z.add_0_l, E. reflexivity.
  - destruct (of_Z_safe x Nx Hx) as (m & e & E & _).
    rewrite Z.add_0_r, E. reflexivity.
  - destruct (of_Z_safe x Nx Hx) as (mx & ex & -> & Lx & Vx).
    destruct (of_Z_safe y Ny Hy) as (my & ey & -> & Ly & Vy).
    unfold num_add. cbn [SFadd]. cbv zeta.
    rewrite (aligned_value x mx ex (Z.min ex ey)) by (trivial; lia).
    rewrite (aligned_value y my ey (Z.min ex ey)) by (trivial; lia).
    rewrite <- Z.mul_add_distr_r.
    rewrite <- (Z.opp_involutive (Z.min ex ey)) at 2.
    apply binary_normalize_shift. lia.
Qed.

Lemma SFsub_safe (x y : Z) :
  Z.abs x < 2 ^ 53 -> Z.abs y < 2 ^ 53 ->
  num_sub (of_Z x) (of_Z y) = of_Z (x - y).
Proof.
  intros Hx Hy.
  destruct (Z.eq_dec x 0) as [-> | Nx]; destruct (Z.eq_dec y 0) as [-> | Ny].
  - reflexivity.
  - destruct y as [| p | p]; [congruence | |];
      destruct (binary_round_safe p Hy) as (m & e & R & _).
    + change (0 - Z.pos p) with (Z.neg p). unfold of_Z.
      cbn [binary_normalize]. rewrite !R. reflexivity.
    + change (0 - Z.neg p) with (Z.pos p). unfold of_Z.
      cbn [binary_normalize]. rewrite !R. reflexivity.
  - destruct (of_Z_safe x Nx Hx) as (m & e & E & _).
    rewrite Z.sub_0_r, E. reflexivity.
  - destruct (of_Z_safe x Nx Hx) as (mx & ex & -> & Lx & Vx).
    destruct (of_Z_safe y Ny Hy) as (my & ey & -> & Ly & Vy).
    unfold num_sub. cbn [SFsub]. cbv zeta.
    rewrite (aligned_value x mx ex (Z.min ex ey)) by (trivial; lia).
    rewrite (aligned_value y my ey (Z.min ex ey)) by (trivial; lia).
    rewrite <- Z.mul_sub_distr_r.
    rewrite <- (Z.opp_involutive (Z.min ex ey)) at 2.
    apply binary_normalize_shift. lia.
Qed.

Lemma strict_eq_refl_finite (a : number) :
  isFinite a = true -> strict_eq a a = true.
Proof.
  destruct a as [s | s | | s m e]; try discriminate; intros _;
    [reflexivity |].
  unfold strict_eq, SFeqb. cbn [SFcompare].
  rewrite Z.compare_refl, Pos.compare_cont_refl. now destruct s.
Qed.

Lemma isFinite_of_Z (z : Z) : Z.abs z < 2 ^ 53 -> isFinite (of_Z z) = true.
Proof.
  intros H. destruct (Z.eq_dec z 0) as [-> | N]; [reflexivity |].
  destruct (of_Z_safe z N H) as (m & e & -> & _). reflexivity.
Qed.

(** Safe integers are one case where adding and subtracting back is exact:
    for integers [x] and [y] with [|x|], [|y|] and [|x + y|] below 2^53, and
    [a], [b] the doubles of [x] and [y], [subtract (add a b) b] is [a]. *)
Theorem add_then_subtract_safe_integers (x y : Z) :
  Z.abs x < 2 ^ 53 -> Z.abs y < 2 ^ 53 -> Z.abs (x + y) < 2 ^ 53 ->
  subtract (add (of_Z x) (of_Z y)) (of_Z y) = of_Z x
  /\ strict_eq (subtract (add (of_Z x) (of_Z y)) (of_Z y)) (of_Z x) = true.
Proof.
  intros Hx Hy Hs.
  assert (E : subtract (add (of_Z x) (of_Z y)) (of_Z y) = of_Z x).
  { unfold subtract, add. rewrite SFadd_safe, SFsub_safe by assumption.
    f_equal. lia. }
  split; [exact E |].
  rewrite E. now apply strict_eq_refl_finite, isFinite_of_Z.
Qed.

Lemma add_then_subtract_safe_integers_witness :
  subtract (add (of_Z 9007199254740000) (of_Z (-991))) (of_Z (-991))
  = of_Z 9007199254740000
  /\ strict_eq
       (subtract (add (of_Z 9007199254740000) (of_Z (-991))) (of_Z (-991)))
       (of_Z 9007199254740000) = true.
Proof.
  apply (add_then_subtract_safe_integers 9007199254740000 (-991)); lia.
Defined.


(* ===================================================================== *)
(** * Further properties of the arithmetic engine                         *)
(* ===================================================================== *)

(** X1. [multiply] commutes: [multiply a b] and [multiply b a] are the same
    double, for all operands (NaN, infinities and zeros included). *)
Theorem multiply_commutative (a b : number) : multiply a b = multiply b a.
Proof.
  unfold multiply, num_mul.
  destruct a as [sa | sa | | sa ma ea], b as [sb | sb | | sb mb eb];
    cbn [SFmul]; try reflexivity; try (now rewrite xorb_comm).
  now rewrite xorb_comm, Pos.mul_comm, Z.add_comm.
Qed.

(** X2. [add] commutes: [add a b] and [add b a] are the same double, for all
    operands. *)
Theorem add_commutative (a b : number) : add a b = add b a.
Proof.
  unfold add, num_add.
  destruct a as [sa | sa | | sa ma ea], b as [sb | sb | | sb mb eb];
    cbn [SFadd]; try reflexivity; try (now destruct sa, sb).
  cbv zeta. now rewrite Z.min_comm, Z.add_comm.
Qed.

(** Rounding a non-negative mantissa never gives NaN. *)
Lemma shr_1_nonneg (mrs : shr_record) :
  0 <= shr_m mrs -> 0 <= shr_m (shr_1 mrs).
Proof.
  destruct mrs as [m r s]. destruct m as [| p | p]; cbn; try lia;
    destruct p; cbn; lia.
Qed.

Lemma shr_fexp_nonneg (m e : Z) (l : location) :
  0 <= m -> 0 <= shr_m (fst (shr_fexp prec emax m e l)).
Proof.
  intros H. unfold shr_fexp, shr.
  assert (H0 : 0 <= shr_m (shr_record_of_loc m l))
    by (destruct l as [| []]; exact H).
  destruct (fexp prec emax (Zdigits2 m + e) - e) as [| n | n];
    cbn [fst]; try exact H0.
  rewrite iter_pos_iter.
  apply Pos.iter_invariant; [| exact H0].
  intros x Hx. now apply shr_1_nonneg.
Qed.

Lemma round_nearest_even_nonneg (m : Z) (l : location) :
  0 <= m -> 0 <= round_nearest_even m l.
Proof.
  intros H. destruct l as [| []]; cbn; try lia. destruct (Z.even m); lia.
Qed.

Lemma binary_round_aux_not_NaN (s : bool) (m e : Z) (l : location) :
  0 <= m -> isNaN (binary_round_aux prec emax s m e l) = false.
Proof.
  intros H. unfold binary_round_aux.
  pose proof (shr_fexp_nonneg m e l H) as H1.
  destruct (shr_fexp prec emax m e l) as [mrs' e']. cbn [fst] in H1.
  pose proof (shr_fexp_nonneg _ e' loc_Exact
                (round_nearest_even_nonneg _ (loc_of_shr_record mrs') H1)) as H2.
  destruct (shr_fexp prec emax _ e' loc_Exact) as [mrs'' e'']. cbn [fst] in H2.
  destruct (shr_m mrs'') as [| q | q]; [reflexivity | | lia].
  now destruct (e'' <=? emax - prec).
Qed.

Lemma binary_normalize_not_NaN (m e : Z) :
  isNaN (binary_normalize prec emax m e false) = false.
Proof.
  destruct m as [| p | p]; [reflexivity | |]; cbn [binary_normalize];
    unfold binary_round;
    destruct (shl_align p e _) as [mz ez];
    now apply binary_round_aux_not_NaN.
Qed.

Lemma divide_finite_divisor (a : number) (s : bool) (m : positive) (e : Z) :
  divide a (S754_finite s m e) = Return (num_div a (S754_finite s m e)).
Proof. apply divide_returns. now destruct s. Qed.

Lemma num_div_finite_not_NaN sa ma ea sb mb eb :
  isNaN (num_div (S754_finite sa ma ea) (S754_finite sb mb eb)) = false.
Proof.
  unfold num_div, SFdiv, SFdiv_core_binary. cbv zeta.
  set (m' := match _ - _ - _ with Z0 => _ | Zpos _ => _ | Zneg _ => _ end).
  assert (Hm : 0 <= m').
  { unfold m'. destruct (_ - _ - _) as [| k | k]; try lia.
    apply Z.shiftl_nonneg. lia. }
  pose proof (Z.div_pos m' (Z.pos mb) Hm ltac:(lia)) as Hq.
  unfold Z.div in Hq.
  destruct (Z.div_eucl m' (Z.pos mb)) as [q r]. cbn [fst] in Hq.
  now apply binary_round_aux_not_NaN.
Qed.

(** X3. On finite operands the engine never produces NaN: [add], [subtract]
    and [multiply] return a number that is not NaN, and [divide] either
    throws (zero divisor, 0 / 0 included) or returns a number that is not
    NaN. *)
Theorem finite_operands_never_NaN (a b : number) :
  isFinite a = true -> isFinite b = true ->
  isNaN (add a b) = false
  /\ isNaN (subtract a b) = false
  /\ isNaN (multiply a b) = false
  /\ (forall r, divide a b = Return r -> isNaN r = false).
Proof.
  intros Ha Hb.
  destruct a as [sa | sa | | sa ma ea]; try discriminate;
    destruct b as [sb | sb | | sb mb eb]; try discriminate.
  - (* zero, zero *)
    repeat apply conj; now destruct sa, sb.
  - (* zero, finite *)
    repeat apply conj; try reflexivity.
    intros r. rewrite divide_finite_divisor. now intros [= <-].
  - (* finite, zero *)
    repeat apply conj; try reflexivity. intros r. discriminate.
  - (* finite, finite *)
    repeat apply conj.
    + apply binary_normalize_not_NaN.
    + apply binary_normalize_not_NaN.
    + now apply binary_round_aux_not_NaN.
    + intros r. rewrite divide_finite_divisor. intros [= <-].
      apply num_div_finite_not_NaN.
Qed.

Lemma finite_operands_never_NaN_witness :
  isNaN (add (of_Z 3) (of_Z (-3))) = false
  /\ isNaN (subtract (of_Z 3) (of_Z 3)) = false
  /\ isNaN (multiply (of_Z 0) (of_Z (-3))) = false
  /\ (forall r, divide (of_Z 1) (of_Z 3) = Return r -> isNaN r = false).
Proof.
  repeat apply conj.
  - exact (proj1 (finite_operands_never_NaN (of_Z 3) (of_Z (-3))
                    eq_refl eq_refl)).
  - exact (proj1 (proj2 (finite_operands_never_NaN (of_Z 3) (of_Z 3)
                           eq_refl eq_refl))).
  - exact (proj1 (proj2 (proj2 (finite_operands_never_NaN (of_Z 0) (of_Z (-3))
                                  eq_refl eq_refl)))).
  - exact (proj2 (proj2 (proj2 (finite_operands_never_NaN (of_Z 1) (of_Z 3)
                                  eq_refl eq_refl)))).
Defined.

(** The double of a safe integer holds that integer. *)
Lemma integerValue_of_Z (z : Z) :
  Z.abs z < 2 ^ 53 -> integerValue (of_Z z) = Some z.
Proof.
  intros H. destruct (Z.eq_dec z 0) as [-> | N]; [reflexivity |].
  destruct (of_Z_safe z N H) as (m & e & -> & Le & V).
  unfold integerValue, cond_Zopp.
  destruct (Z.leb_spec 0 e) as [G | L].
  - assert (e = 0) by lia. subst e. rewrite V. f_equal.
    change (2 ^ (- 0)) with 1. change (2 ^ 0) with 1.
    destruct (Z.ltb_spec z 0); lia.
  - assert (P : 0 < 2 ^ (- e)) by (apply Z.pow_pos_nonneg; lia).
    rewrite V, Z.mod_mul, Z.div_mul by lia. cbn [Z.eqb]. f_equal.
    destruct (Z.ltb_spec z 0); lia.
Qed.

(** X4. Sums and differences of safe integers are exact: for integers [x]
    and [y] with [|x|] and [|y|] below 2^53, [add] and [subtract] on their
    doubles give the double nearest to [x + y] and [x - y], and that double
    holds the exact integer when it is itself below 2^53 in size. *)
Theorem safe_integer_sums_exact (x y : Z) :
  Z.abs x < 2 ^ 53 -> Z.abs y < 2 ^ 53 ->
  add (of_Z x) (of_Z y) = of_Z (x + y)
  /\ subtract (of_Z x) (of_Z y) = of_Z (x - y)
  /\ (Z.abs (x + y) < 2 ^ 53 ->
      integerValue (add (of_Z x) (of_Z y)) = Some (x + y))
  /\ (Z.abs (x - y) < 2 ^ 53 ->
      integerValue (subtract (of_Z x) (of_Z y)) = Some (x - y)).
Proof.
  intros Hx Hy. unfold add, subtract.
  rewrite SFadd_safe, SFsub_safe by assumption.
  repeat apply conj; try reflexivity; apply integerValue_of_Z.
Qed.

Lemma safe_integer_sums_exact_witness :
  add (of_Z 9007199254740991) (of_Z (-1)) = of_Z 9007199254740990
  /\ integerValue (subtract (of_Z 5) (of_Z 8)) = Some (-3).
Proof.
  split.
  - apply (safe_integer_sums_exact 9007199254740991 (-1)); lia.
  - apply (safe_integer_sums_exact 5 8); lia.
Defined.

(** A safe positive integer as a double, with the shape of its mantissa. *)
Lemma binary_round_safe_canonical (p : positive) :
  Zpos p < 2 ^ 53 ->
  exists m e,
    (forall s, binary_round prec emax s p 0 = S754_finite s m e)
    /\ e <= 0 /\ Zpos m = Zpos p * 2 ^ (- e)
    /\ 2 ^ 52 <= Zpos m < 2 ^ 53
    /\ fexp prec emax (Zpos (digits2_pos m) + e) = e.
Proof.
  intros H. pose proof (digits2_pos_safe p H) as D.
  unfold binary_round.
  set (f := fexp prec emax (Zpos (digits2_pos p) + 0)).
  assert (Ef : f = Zpos (digits2_pos p) - 53).
  { unfold f, fexp, emin, prec, emax. lia. }
  destruct (shl_align_spec p 0 f ltac:(lia)) as [S1 S2].
  destruct (shl_align p 0 f) as [mz ez] eqn:A. cbn in S1, S2. subst ez.
  assert (Dz : Zpos (digits2_pos mz) = 53).
  { unfold shl_align in A. destruct (f - 0) as [| k | k] eqn:E.
    - inversion A; subst. lia.
    - lia.
    - inversion A; subst. rewrite digits2_pos_shift. lia. }
  assert (C : fexp prec emax (Zpos (digits2_pos mz) + f) = f).
  { rewrite Dz. unfold fexp, emin, prec, emax. lia. }
  exists mz, f. repeat apply conj.
  - intros s. apply binary_round_aux_canonical; [exact C |].
    unfold emax, prec. lia.
  - lia.
  - rewrite S2. now replace (0 - f) with (- f) by lia.
  - pose proof (digits2_pos_bounds mz) as [B _]. now rewrite Dz in B.
  - pose proof (digits2_pos_bounds mz) as [_ B]. now rewrite Dz in B.
  - exact C.
Qed.

(** A mantissa in canonical position shifted left, the exponent lowered as
    much, rounds to itself. *)
Lemma binary_round_aux_exact s (q k : positive) (f : Z) :
  fexp prec emax (Zpos (digits2_pos q) + f) = f ->
  f <= emax - prec ->
  binary_round_aux prec emax s (Zpos (Pos.iter xO q k)) (f - Zpos k) loc_Exact
  = S754_finite s q f.
Proof.
  intros Hf He.
  rewrite <- (binary_round_aux_canonical s q f Hf He).
  apply binary_round_aux_shr. unfold shr_fexp. cbn [Zdigits2].
  rewrite digits2_pos_shift.
  replace (Zpos (digits2_pos q + k) + (f - Zpos k))
    with (Zpos (digits2_pos q) + f) by lia.
  rewrite Hf, Z.sub_diag.
  replace (f - (f - Zpos k)) with (Zpos k) by lia.
  cbn [shr shr_record_of_loc].
  rewrite iter_pos_iter, shr_shifted. f_equal. lia.
Qed.

Lemma multiply_safe_pos (s : bool) (px py : positive) :
  Zpos (px * py) < 2 ^ 53 ->
  num_mul (binary_round prec emax false px 0) (binary_round prec emax s py 0)
  = binary_round prec emax s (px * py) 0.
Proof.
  intros H.
  assert (Hx : Zpos px < 2 ^ 53) by (rewrite Pos2Z.inj_mul in H; nia).
  assert (Hy : Zpos py < 2 ^ 53) by (rewrite Pos2Z.inj_mul in H; nia).
  destruct (binary_round_safe_canonical px Hx)
    as (mx & ex & Rx & Lx & Vx & [Bx _] & _).
  destruct (binary_round_safe_canonical py Hy)
    as (my & ey & Ry & Ly & Vy & [By _] & _).
  destruct (binary_round_safe_canonical (px * py) H)
    as (q & f & Rq & Lq & Vq & [_ Bq] & Cq).
  rewrite Rx, Ry, Rq. unfold num_mul. cbn [SFmul xorb].
  assert (P : Zpos (mx * my) = Zpos (px * py) * 2 ^ (- ex - ey)).
  { rewrite Pos2Z.inj_mul, Vx, Vy, (Pos2Z.inj_mul px py).
    replace (- ex - ey) with (- ex + - ey) by lia.
    rewrite Z.pow_add_r by lia. ring. }
  assert (Big : 2 ^ 104 <= Zpos (mx * my)).
  { rewrite Pos2Z.inj_mul. change (2 ^ 104) with (2 ^ 52 * 2 ^ 52).
    apply Z.mul_le_mono_nonneg; lia. }
  assert (Hd : 0 < f - ex - ey).
  { destruct (Z_lt_le_dec 0 (f - ex - ey)) as [G | L]; [exact G | exfalso].
    assert (2 ^ (- ex - ey) <= 2 ^ (- f)) by (apply Z.pow_le_mono_r; lia).
    assert (Zpos (mx * my) <= Zpos q).
    { rewrite P, Vq. apply Z.mul_le_mono_nonneg_l; lia. }
    change (2 ^ 104) with (2 ^ 53 * 2 ^ 51) in Big. lia. }
  destruct (f - ex - ey) as [| k | k] eqn:E; try lia.
  assert (M : (mx * my)%positive = Pos.iter xO q k).
  { apply Pos2Z.inj. rewrite shift_value, P, Vq, <- Z.mul_assoc.
    rewrite <- Z.pow_add_r by lia. do 2 f_equal. lia. }
  rewrite M. replace (ex + ey) with (f - Zpos k) by lia.
  apply binary_round_aux_exact; [exact Cq |]. unfold emax, prec. lia.
Qed.

Lemma num_mul_of_Z (x y : Z) :
  x <> 0 -> y <> 0 -> Z.abs (x * y) < 2 ^ 53 ->
  num_mul (of_Z x) (of_Z y) = of_Z (x * y).
Proof.
  intros Nx Ny H. unfold of_Z.
  destruct x as [| px | px]; [congruence | |];
    destruct y as [| py | py]; try congruence;
    change (Zpos (px * py) < 2 ^ 53) in H;
    pose proof (multiply_safe_pos false px py H) as F;
    pose proof (multiply_safe_pos true px py H) as T.
  - exact F.
  - exact T.
  - change (num_mul (binary_round prec emax true px 0)
                    (binary_round prec emax false py 0)
            = binary_round prec emax true (px * py) 0).
    rewrite <- T.
    destruct (binary_round_safe px) as (mx & ex & Rx & _);
      [rewrite Pos2Z.inj_mul in H; nia |].
    destruct (binary_round_safe py) as (my & ey & Ry & _);
      [rewrite Pos2Z.inj_mul in H; nia |].
    now rewrite !Rx, !Ry.
  - change (num_mul (binary_round prec emax true px 0)
                    (binary_round prec emax true py 0)
            = binary_round prec emax false (px * py) 0).
    rewrite <- F.
    destruct (binary_round_safe px) as (mx & ex & Rx & _);
      [rewrite Pos2Z.inj_mul in H; nia |].
    destruct (binary_round_safe py) as (my & ey & Ry & _);
      [rewrite Pos2Z.inj_mul in H; nia |].
    now rewrite !Rx, !Ry.
Qed.

(** X5. Products of integers are exact as long as they fit: for non-zero
    integers [x] and [y] whose product is below 2^53 in size, [multiply] on
    their doubles gives the double that holds [x * y]. *)
Theorem safe_integer_product_exact (x y : Z) :
  x <> 0 -> y <> 0 -> Z.abs (x * y) < 2 ^ 53 ->
  multiply (of_Z x) (of_Z y) = of_Z (x * y)
  /\ integerValue (multiply (of_Z x) (of_Z y)) = Some (x * y).
Proof.
  intros Nx Ny H. unfold multiply.
  rewrite (num_mul_of_Z x y Nx Ny H).
  split; [reflexivity |]. now apply integerValue_of_Z.
Qed.

Lemma safe_integer_product_exact_witness :
  multiply (of_Z 94906265) (of_Z (-94906265)) = of_Z (-9007199136250225)
  /\ integerValue (multiply (of_Z 94906265) (of_Z (-94906265)))
     = Some (-9007199136250225).
Proof.
  apply (safe_integer_product_exact 94906265 (-94906265)); lia.
Defined.

(* ===================================================================== *)
(** * Further properties of the terminal programs                         *)
(* ===================================================================== *)

Lemma isValidOperation_cases operation :
  Index.isValidOperation operation = true
  <-> operation = "+" \/ operation = "-" \/ operation = "*" \/ operation = "/".
Proof.
  unfold Index.isValidOperation.
  rewrite !orb_true_iff, !String.eqb_eq. tauto.
Qed.

(** X6. The three copies of the dispatch agree on the four operators: for
    "+", "-", "*" and "/" the dispatch of src/index.ts, the [switch] of
    src/calculator.ts and [performCalculation] of web/app.js complete the
    same way.  On any other operator the latter two throw "Invalid
    operation", while the dispatch of src/index.ts divides. *)
Theorem dispatchers_agree (num1 num2 : number) (operation : string) :
  (Index.isValidOperation operation = true ->
     Index.dispatch num1 num2 operation
     = Web.performCalculation num1 num2 operation
     /\ Calculator.dispatch num1 num2 operation
        = Web.performCalculation num1 num2 operation)
  /\ (Index.isValidOperation operation = false ->
     Web.performCalculation num1 num2 operation
     = Throw (mkError "Invalid operation")
     /\ Calculator.dispatch num1 num2 operation
        = Throw (mkError "Invalid operation")
     /\ Index.dispatch num1 num2 operation = divide num1 num2).
Proof.
  unfold Index.isValidOperation, Index.dispatch, Calculator.dispatch,
    Web.performCalculation.
  destruct (String.eqb operation "+"); [now split |].
  destruct (String.eqb operation "-"); [now split |].
  destruct (String.eqb operation "*"); [now split |].
  destruct (String.eqb operation "/"); now split.
Qed.

Lemma dispatchers_agree_witness :
  Index.dispatch (of_Z 6) (of_Z 3) "/"
  = Web.performCalculation (of_Z 6) (of_Z 3) "/"
  /\ Web.performCalculation (of_Z 6) (of_Z 3) "x"
     = Throw (mkError "Invalid operation")
  /\ Index.dispatch (of_Z 6) (of_Z 3) "x" = divide (of_Z 6) (of_Z 3).
Proof.
  repeat apply conj.
  - apply (proj1 (dispatchers_agree (of_Z 6) (of_Z 3) "/")). reflexivity.
  - apply (proj2 (dispatchers_agree (of_Z 6) (of_Z 3) "x")). reflexivity.
  - apply (proj2 (dispatchers_agree (of_Z 6) (of_Z 3) "x")). reflexivity.
Defined.

(** X7. In src/index.ts a calculation with an accepted operator fails in one
    case only, the division by a zero: then the error line is printed and
    nothing is recorded.  In every other case the result line is printed and
    the same text, without "Result: ", is appended to the history. *)
Theorem valid_calculation_outcome (num1 num2 : number) (operation : string)
    (h : list string) :
  Index.isValidOperation operation = true ->
  (operation = "/" /\ strict_eq num2 pos_zero = true ->
     Index.main (Index.AwaitOperator num1 num2) operation h
     = (Index.AwaitContinuation, h,
        [ConsoleLog (LF +:+ "Error: Cannot divide by zero!" +:+ LF);
         Question Index.continuePrompt]))
  /\ (~ (operation = "/" /\ strict_eq num2 pos_zero = true) ->
     exists r,
       Index.dispatch num1 num2 operation = Return r
       /\ Index.main (Index.AwaitOperator num1 num2) operation h
          = (Index.AwaitContinuation,
             h ++ [Index.calculationString num1 operation num2 r],
             [ConsoleLog (LF +:+ "Result: "
                          +:+ Index.calculationString num1 operation num2 r
                          +:+ LF);
              Question Index.continuePrompt])).
Proof.
  intros Hv. cbn [Index.main Index.performCalculation]. rewrite Hv. split.
  - intros [-> Hz]. unfold Index.compute, Index.dispatch. cbn [String.eqb].
    cbn. rewrite (divide_throws num1 num2 Hz). reflexivity.
  - intros Hn.
    destruct (Index.dispatch num1 num2 operation) as [r | e] eqn:E.
    + exists r. split; [reflexivity |].
      unfold Index.compute. rewrite E. reflexivity.
    + exfalso. apply Hn.
      destruct (dispatch_throws _ _ _ _ E) as [_ Hz]. split; [| exact Hz].
      apply isValidOperation_cases in Hv.
      destruct Hv as [-> | [-> | [-> | ->]]]; try discriminate. reflexivity.
Qed.

Lemma valid_calculation_outcome_witness :
  Index.main (Index.AwaitOperator (of_Z 8) neg_zero) "/" ["1 + 1 = 2"]
  = (Index.AwaitContinuation, ["1 + 1 = 2"],
     [ConsoleLog (LF +:+ "Error: Cannot divide by zero!" +:+ LF);
      Question Index.continuePrompt])
  /\ exists r,
       Index.dispatch (of_Z 8) (of_Z 2) "/" = Return r
       /\ Index.main (Index.AwaitOperator (of_Z 8) (of_Z 2)) "/" []
          = (Index.AwaitContinuation,
             [] ++ [Index.calculationString (of_Z 8) "/" (of_Z 2) r],
             [ConsoleLog (LF +:+ "Result: "
                          +:+ Index.calculationString (of_Z 8) "/" (of_Z 2) r
                          +:+ LF);
              Question Index.continuePrompt]).
Proof.
  split.
  - apply (valid_calculation_outcome (of_Z 8) neg_zero "/" ["1 + 1 = 2"]);
      [reflexivity | split; reflexivity].
  - apply (valid_calculation_outcome (of_Z 8) (of_Z 2) "/" []);
      [reflexivity | intros [_ H]; discriminate].
Defined.

(** X8. In src/index.ts a refused operator keeps the program at the operator
    question with both operands and the history untouched, however many
    refused lines follow one another; each prints the error line and asks
    the operator again. *)
Theorem operator_reprompt (answers : list string) (num1 num2 : number)
    (h : list string) (shown : list event) :
  Forall (fun a => Index.isValidOperation a = false) answers ->
  Index.run (Index.AwaitOperator num1 num2, h, shown) answers
  = (Index.AwaitOperator num1 num2, h,
     shown ++ concat (map (fun _ => operatorRefused) answers)).
Proof.
  intros H. revert shown.
  induction H as [| a answers Ha _ IH]; intros shown.
  - cbn. now rewrite app_nil_r.
  - cbn [Index.run Index.main Index.performCalculation]. rewrite Ha.
    rewrite IH. cbn [map concat]. now rewrite <- app_assoc.
Qed.

Lemma operator_reprompt_witness :
  Index.run (Index.AwaitOperator (of_Z 1) (of_Z 2), ["1 + 1 = 2"], [])
            ["x"; " +"; "plus"; ""]
  = (Index.AwaitOperator (of_Z 1) (of_Z 2), ["1 + 1 = 2"],
     [] ++ concat (map (fun _ => operatorRefused) ["x"; " +"; "plus"; ""])).
Proof.
  apply (operator_reprompt ["x"; " +"; "plus"; ""]). repeat constructor.
Defined.

(** X9. The operator is compared as typed: an accepted operator is one
    character long, and with any character before or after it (a space
    included) it is refused. *)
Theorem operator_not_trimmed (operation : string) (c : ascii) :
  Index.isValidOperation operation = true ->
  String.length operation = 1%nat
  /\ Index.isValidOperation (String c operation) = false
  /\ Index.isValidOperation (operation +:+ String c "") = false.
Proof.
  intros H. apply isValidOperation_cases in H.
  destruct H as [-> | [-> | [-> | ->]]];
    (split; [reflexivity |]); split;
    unfold Index.isValidOperation; cbn;
    rewrite ?andb_false_r; try reflexivity;
    repeat match goal with
           | |- context [Ascii.eqb ?a ?b] => destruct (Ascii.eqb a b)
           end; reflexivity.
Qed.

Lemma operator_not_trimmed_witness :
  String.length "+" = 1%nat
  /\ Index.isValidOperation " +" = false
  /\ Index.isValidOperation "+ " = false.
Proof. apply (operator_not_trimmed "+" " "). reflexivity. Defined.

(** One line typed into src/index.ts, anywhere but "clear" at the
    continuation question, leaves the history as a prefix of the new one. *)
Lemma main_history_prefix s answer h :
  trim (toLowerCase answer) <> "clear" ->
  h `prefix_of` historyAfter (Index.main s answer h).
Proof.
  intros N.
  destruct s as [| num1 | num1 num2 | |];
    try (match goal with
         | |- context [Index.main ?s _ _] =>
             destruct (performCalculation_history s answer h)
               as [E | (? & ? & r & _ & _ & E)]
         end;
         unfold Index.main; rewrite E; [reflexivity | now apply prefix_app_r]).
  - unfold Index.main. cbv zeta. apply String.eqb_neq in N. rewrite N.
    destruct (String.eqb _ "history"); [reflexivity |].
    destruct (Index.wantsToQuit answer); reflexivity.
  - reflexivity.
Qed.

(** X10. The history of src/index.ts is append-only: as long as no line is
    "clear" (in any letter case, with any surrounding white space), the
    history before a run is a prefix of the history after it, whatever is
    typed; "clear" at the continuation question is the one line that
    removes records, and it removes them all. *)
Theorem history_append_only (answers : list string) (s : Index.state)
    (h : list string) (shown : list event) :
  Forall (fun a => trim (toLowerCase a) <> "clear") answers ->
  h `prefix_of` historyAfter (Index.run (s, h, shown) answers)
  /\ (length h <= length (historyAfter (Index.run (s, h, shown) answers))
      <= length h + length answers)%nat
  /\ (forall a, trim (toLowerCase a) = "clear" ->
        historyAfter (Index.main Index.AwaitContinuation a h) = []).
Proof.
  intros H. split; [| split].
  - revert s h shown.
    induction H as [| a answers Ha _ IH]; intros s h shown; [reflexivity |].
    cbn [Index.run].
    pose proof (main_history_prefix s a h Ha) as P.
    destruct (Index.main s a h) as [[s' h'] more]. cbn in P.
    etransitivity; [exact P | apply IH].
  - revert s h shown.
    induction H as [| a answers Ha _ IH]; intros s h shown; [cbn; lia |].
    cbn [Index.run].
    assert (L : (length h <= length (historyAfter (Index.main s a h))
                 <= length h + 1)%nat).
    { destruct s as [| num1 | num1 num2 | |];
        try (match goal with
             | |- context [Index.main ?s _ _] =>
                 destruct (performCalculation_history s a h)
                   as [E | (? & ? & r & _ & _ & E)]
             end;
             unfold Index.main; rewrite E; rewrite ?length_app; cbn; lia).
      - unfold Index.main. cbv zeta. apply String.eqb_neq in Ha. rewrite Ha.
        destruct (String.eqb _ "history"); [cbn; lia |].
        destruct (Index.wantsToQuit a); cbn; lia.
      - cbn. lia. }
    destruct (Index.main s a h) as [[s' h'] more]. cbn in L.
    specialize (IH s' h' (shown ++ more)). cbn [length]. lia.
  - intros a E. unfold Index.main. cbv zeta. rewrite E. reflexivity.
Qed.

Lemma history_append_only_witness :
  ["1 + 1 = 2"]
    `prefix_of` historyAfter
      (Index.run (Index.AwaitContinuation, ["1 + 1 = 2"], [])
                 ["history"; "2"; "x"; "0"; "/"; ""; "2"; "3"; "*"; "q"])
  /\ historyAfter
       (Index.run (Index.AwaitContinuation, ["1 + 1 = 2"], [])
                  ["history"; "2"; "x"; "0"; "/"; ""; "2"; "3"; "*"; "q"])
     = ["1 + 1 = 2"; "2 * 3 = 6"].
Proof.
  split.
  - apply (history_append_only
             ["history"; "2"; "x"; "0"; "/"; ""; "2"; "3"; "*"; "q"]).
    repeat constructor; discriminate.
  - vm_compute. reflexivity.
Defined.

(** X11. The operands src/index.ts carries have passed the validator: from
    the start of the program, whatever is typed, an operand held at the
    second-operand or at the operator question is never NaN, so the
    arithmetic is never entered with a NaN operand. *)
Theorem operands_never_NaN (answers : list string) :
  operandsValid (stateAfter (Index.run Index.start answers))
  /\ (forall s h shown,
        operandsValid s ->
        operandsValid (stateAfter (Index.run (s, h, shown) answers))).
Proof.
  assert (Step : forall s a h,
             operandsValid s -> operandsValid (stateAfter (Index.main s a h))).
  { intros s a h V.
    destruct s as [| num1 | num1 num2 | |]; cbn.
    - destruct (Index.isValidNumber a) eqn:E; cbn; [| exact I].
      rewrite isValidNumber_isNaN in E. now destruct (isNaN (parseFloat a)).
    - destruct (Index.isValidNumber a) eqn:E; cbn; [| exact V].
      rewrite isValidNumber_isNaN in E.
      split; [exact V | now destruct (isNaN (parseFloat a))].
    - destruct (Index.isValidOperation a); cbn; [| exact V].
      now destruct (Index.compute num1 num2 a h).
    - destruct (String.eqb _ "history"); [exact I |].
      destruct (String.eqb _ "clear"); [exact I |].
      destruct (Index.wantsToQuit a); exact I.
    - exact I. }
  assert (Run : forall s h shown,
             operandsValid s ->
             operandsValid (stateAfter (Index.run (s, h, shown) answers))).
  { induction answers as [| a answers IH]; intros s h shown V; [exact V |].
    cbn [Index.run]. specialize (Step s a h V).
    destruct (Index.main s a h) as [[s' h'] more]. now apply IH. }
  split; [| exact Run].
  apply Run. exact I.
Qed.

Lemma operands_never_NaN_witness :
  operandsValid
    (stateAfter (Index.run (Index.AwaitOperand2 (of_Z 1), [], [])
                           ["NaN"; "abc"; "Infinity"])).
Proof.
  apply (proj2 (operands_never_NaN ["NaN"; "abc"; "Infinity"])).
  reflexivity.
Defined.

(** ** White space and letter case in the lines typed *)

Lemma toLowerCase_app (a b : string) :
  toLowerCase (a +:+ b) = toLowerCase a +:+ toLowerCase b.
Proof. induction a as [| c a IH]; simpl; [reflexivity | now rewrite IH]. Qed.

Lemma lower_char_white (c : ascii) :
  isWhiteSpace (lower_char c) = isWhiteSpace c.
Proof. destruct c as [[] [] [] [] [] [] [] []]; reflexivity. Qed.

Lemma toLowerCase_white (s : string) :
  allWhiteSpace (toLowerCase s) = allWhiteSpace s.
Proof.
  induction s as [| c s IH];
    simpl; [reflexivity |].
  now rewrite lower_char_white, IH.
Qed.

Lemma trimStart_white (pre s : string) :
  allWhiteSpace pre = true -> trimStart (pre +:+ s) = trimStart s.
Proof.
  induction pre as [| c pre IH];
    simpl; [reflexivity |].
  intros [Hc Hp]%andb_true_iff. rewrite Hc. now apply IH.
Qed.

Lemma trimStart_all_white (pre : string) :
  allWhiteSpace pre = true -> trimStart pre = "".
Proof.
  induction pre as [| c pre IH]; simpl; [reflexivity |].
  intros [Hc Hp]%andb_true_iff. rewrite Hc. now apply IH.
Qed.

Lemma trimEnd_all_white (post : string) :
  allWhiteSpace post = true -> trimEnd post = "".
Proof.
  induction post as [| c post IH];
    simpl; [reflexivity |].
  intros [Hc Hp]%andb_true_iff. now rewrite (IH Hp), Hc.
Qed.

Lemma trimEnd_white (s post : string) :
  allWhiteSpace post = true -> trimEnd (s +:+ post) = trimEnd s.
Proof.
  intros H. induction s as [| c s IH]; simpl.
  - now apply trimEnd_all_white.
  - now rewrite IH.
Qed.

Lemma trim_white (pre s post : string) :
  allWhiteSpace pre = true -> allWhiteSpace post = true ->
  trim (pre +:+ s +:+ post) = trim s.
Proof.
  intros Hpre Hpost. unfold trim. rewrite (trimStart_white pre _ Hpre).
  induction s as [| c s IH].
  - change ("" +:+ post) with post.
    now rewrite (trimStart_all_white post Hpost).
  - change (String c s +:+ post) with (String c (s +:+ post)).
    change (trimStart (String c (s +:+ post)))
      with (if isWhiteSpace c then trimStart (s +:+ post)
            else String c (s +:+ post)).
    change (trimStart (String c s))
      with (if isWhiteSpace c then trimStart s else String c s).
    destruct (isWhiteSpace c); [exact IH |].
    change (String c (s +:+ post)) with (String c s +:+ post).
    now apply trimEnd_white.
Qed.

(** [main] reads its line through [toLowerCase().trim()] only. *)
Lemma main_continuation_token (a b : string) (h : list string) :
  trim (toLowerCase a) = trim (toLowerCase b) ->
  Index.main Index.AwaitContinuation a h
  = Index.main Index.AwaitContinuation b h.
Proof.
  intros E. unfold Index.main, Index.wantsToQuit. cbv zeta. now rewrite E.
Qed.

(** X12. The continuation question of src/index.ts reads its line up to
    letter case and surrounding white space: two lines with the same
    lowercase form, one of them wrapped in any white space, are answered
    the same way (same next state, same history, same output). *)
Theorem continuation_ignores_case_and_space (pre a post b : string)
    (h : list string) :
  allWhiteSpace pre = true -> allWhiteSpace post = true ->
  toLowerCase a = toLowerCase b ->
  Index.main Index.AwaitContinuation (pre +:+ a +:+ post) h
  = Index.main Index.AwaitContinuation b h
  /\ Index.wantsToQuit (pre +:+ a +:+ post) = Index.wantsToQuit b.
Proof.
  intros Hpre Hpost E.
  assert (T : trim (toLowerCase (pre +:+ a +:+ post)) = trim (toLowerCase b)).
  { rewrite !toLowerCase_app, E.
    apply trim_white; now rewrite toLowerCase_white. }
  split.
  - now apply main_continuation_token.
  - unfold Index.wantsToQuit. cbv zeta. now rewrite T.
Qed.

Lemma continuation_ignores_case_and_space_witness :
  Index.main Index.AwaitContinuation ("  " +:+ "QuIt" +:+ (" " +:+ LF))
                                     ["1 + 1 = 2"]
  = Index.main Index.AwaitContinuation "quit" ["1 + 1 = 2"]
  /\ Index.wantsToQuit ("  " +:+ "QuIt" +:+ (" " +:+ LF))
     = Index.wantsToQuit "quit".
Proof.
  apply (continuation_ignores_case_and_space "  " "QuIt" (" " +:+ LF) "quit");
    reflexivity.
Defined.

Lemma parseFloat_white (pre s : string) :
  allWhiteSpace pre = true -> parseFloat (pre +:+ s) = parseFloat s.
Proof.
  intros H. unfold parseFloat. cbv zeta. now rewrite (trimStart_white pre s H).
Qed.

(** X13. At an operand question of src/index.ts a line of white space only
    (the empty line included) is refused and asked again, and white space
    before an operand is ignored: the line is accepted or refused, and read
    as the same number, as without it. *)
Theorem operand_white_space (pre : string) :
  allWhiteSpace pre = true ->
  Index.isValidNumber pre = false
  /\ (forall h,
        Index.main Index.AwaitOperand1 pre h
        = (Index.AwaitOperand1, h,
           [ConsoleLog Index.invalidNumber; Question Index.firstPrompt]))
  /\ (forall s,
        parseFloat (pre +:+ s) = parseFloat s
        /\ Index.isValidNumber (pre +:+ s) = Index.isValidNumber s)
  /\ (forall s h num1,
        Index.main Index.AwaitOperand1 (pre +:+ s) h
        = Index.main Index.AwaitOperand1 s h
        /\ Index.main (Index.AwaitOperand2 num1) (pre +:+ s) h
           = Index.main (Index.AwaitOperand2 num1) s h).
Proof.
  intros H.
  assert (V : Index.isValidNumber pre = false).
  { unfold Index.isValidNumber, parseFloat. cbv zeta.
    now rewrite (trimStart_all_white pre H). }
  repeat apply conj.
  - exact V.
  - intros h. cbn. now rewrite V.
  - intros s. split; [now apply parseFloat_white |].
    unfold Index.isValidNumber. cbv zeta. now rewrite parseFloat_white.
  - intros s h num1.
    split; cbn; unfold Index.isValidNumber; cbv zeta;
      now rewrite parseFloat_white.
Qed.

Lemma operand_white_space_witness :
  Index.isValidNumber "   " = false
  /\ parseFloat ("   " +:+ "42") = parseFloat "42".
Proof.
  split.
  - apply (operand_white_space "   "). reflexivity.
  - apply (proj1 (proj2 (proj2 (operand_white_space "   " eq_refl)))).
Defined.

(** ** src/calculator.ts *)

Lemma lower_char_q (c : ascii) :
  lower_char c = "q"%char <-> c = "q"%char \/ c = "Q"%char.
Proof.
  destruct c as [[] [] [] [] [] [] [] []];
    (split; [intros H; vm_compute in H; try discriminate H; auto
            | intros [H | H]; try discriminate H; reflexivity]).
Qed.

Lemma toLowerCase_q (operation : string) :
  String.eqb (toLowerCase operation) "q" = true
  <-> operation = "q" \/ operation = "Q".
Proof.
  rewrite String.eqb_eq.
  destruct operation as [| c [| c' r]]; simpl.
  - split; [discriminate | intros [H | H]; discriminate].
  - split.
    + intros [= H]. apply lower_char_q in H. destruct H as [-> | ->]; auto.
    + intros [[= ->] | [= ->]]; reflexivity.
  - split; [discriminate | intros [H | H]; discriminate].
Qed.

Lemma calculator_run_Closed shown answers :
  Calculator.run (Calculator.Closed, shown) answers = (Calculator.Closed, shown).
Proof.
  revert shown. induction answers as [| a answers IH]; intros shown;
    [reflexivity |].
  cbn. rewrite app_nil_r. apply IH.
Qed.

(** X14. src/calculator.ts ends on "q" or "Q" typed at the operator
    question and on nothing else: the line is lowercased but not trimmed,
    and at the operand questions no line ends the program.  Once ended it
    reads no further line. *)
Theorem calculator_quit (s : Calculator.state) (answer : string) :
  (fst (Calculator.calculator s answer) = Calculator.Closed
   <-> s = Calculator.Closed
       \/ s = Calculator.AwaitOperation /\ (answer = "q" \/ answer = "Q"))
  /\ (answer = "q" \/ answer = "Q" ->
      Calculator.calculator Calculator.AwaitOperation answer
      = (Calculator.Closed, [ConsoleLog "Goodbye!"; Close]))
  /\ (forall shown answers,
        Calculator.run (Calculator.Closed, shown) answers
        = (Calculator.Closed, shown)).
Proof.
  split; [| split].
  - destruct s as [| operation | operation num1 |]; cbn.
    + destruct (String.eqb (toLowerCase answer) "q") eqn:Q.
      * apply toLowerCase_q in Q. cbn. tauto.
      * destruct (negb (Calculator.includes answer)); cbn;
          (split; [discriminate |]);
          intros [H | [_ H]]; try discriminate H;
          apply toLowerCase_q in H; congruence.
    + destruct (isNaN (parseFloat answer)); cbn;
        (split; [discriminate | intros [H | [H _]]; discriminate H]).
    + destruct (isNaN (parseFloat answer)); cbn;
        [| destruct (Calculator.dispatch num1 (parseFloat answer) operation)];
        cbn; (split; [discriminate | intros [H | [H _]]; discriminate H]).
    + tauto.
  - intros H. apply toLowerCase_q in H. cbn. now rewrite H.
  - intros shown answers. apply calculator_run_Closed.
Qed.

Lemma calculator_quit_witness :
  Calculator.calculator Calculator.AwaitOperation "Q"
  = (Calculator.Closed, [ConsoleLog "Goodbye!"; Close]).
Proof.
  apply (proj1 (proj2 (calculator_quit Calculator.AwaitOperation "Q"))).
  now right.
Defined.

(** X15. Each line typed into src/calculator.ts makes it ask exactly the
    question of the state it moves to (none once closed).  A refused
    operator stays at the operator question; a refused operand and every
    finished calculation, successful or not, go back to the operator
    question, the operands entered so far dropped. *)
Theorem calculator_asks_next (s : Calculator.state) (answer : string) :
  questions (snd (Calculator.calculator s answer))
  = calculatorQuestion (fst (Calculator.calculator s answer))
  /\ (forall operation,
        s = Calculator.AwaitFirst operation ->
        isNaN (parseFloat answer) = true ->
        fst (Calculator.calculator s answer) = Calculator.AwaitOperation)
  /\ (forall operation num1,
        s = Calculator.AwaitSecond operation num1 ->
        fst (Calculator.calculator s answer) = Calculator.AwaitOperation)
  /\ (s = Calculator.AwaitOperation ->
      fst (Calculator.calculator s answer) = Calculator.AwaitOperation
      \/ fst (Calculator.calculator s answer) = Calculator.Closed
      \/ fst (Calculator.calculator s answer) = Calculator.AwaitFirst answer
         /\ Calculator.includes answer = true).
Proof.
  repeat apply conj.
  - destruct s as [| operation | operation num1 |]; cbn.
    + destruct (String.eqb (toLowerCase answer) "q"); [reflexivity |].
      now destruct (Calculator.includes answer).
    + now destruct (isNaN (parseFloat answer)).
    + destruct (isNaN (parseFloat answer)); [reflexivity |].
      now destruct (Calculator.dispatch num1 (parseFloat answer) operation).
    + reflexivity.
  - intros operation -> H. cbn. now rewrite H.
  - intros operation num1 ->. cbn.
    destruct (isNaN (parseFloat answer)); [reflexivity |].
    now destruct (Calculator.dispatch num1 (parseFloat answer) operation).
  - intros ->. cbn.
    destruct (String.eqb (toLowerCase answer) "q"); [auto |].
    destruct (Calculator.includes answer); cbn; auto.
Qed.

Lemma calculator_asks_next_witness :
  fst (Calculator.calculator (Calculator.AwaitFirst "+") "abc")
  = Calculator.AwaitOperation
  /\ fst (Calculator.calculator (Calculator.AwaitSecond "/" (of_Z 1)) "0")
     = Calculator.AwaitOperation.
Proof.
  split.
  - apply (proj1 (proj2 (calculator_asks_next (Calculator.AwaitFirst "+") "abc"))
             "+" eq_refl eq_refl).
  - apply (proj1 (proj2 (proj2
             (calculator_asks_next (Calculator.AwaitSecond "/" (of_Z 1)) "0")))
             "/" (of_Z 1) eq_refl).
Defined.

Lemma append_assoc (a b c : string) : (a +:+ b) +:+ c = a +:+ b +:+ c.
Proof.
  induction a as [| x a IH]; [reflexivity |].
  change (String x ((a +:+ b) +:+ c) = String x (a +:+ b +:+ c)).
  now f_equal.
Qed.

Lemma calculator_dispatch_valid num1 num2 operation :
  Index.isValidOperation operation = true ->
  Calculator.dispatch num1 num2 operation = Index.dispatch num1 num2 operation.
Proof.
  unfold Index.isValidOperation, Index.dispatch, Calculator.dispatch.
  destruct (String.eqb operation "+"); [reflexivity |].
  destruct (String.eqb operation "-"); [reflexivity |].
  destruct (String.eqb operation "*"); [reflexivity |].
  destruct (String.eqb operation "/"); [reflexivity | discriminate].
Qed.

(** X16. The two terminal programs print the same line for the same
    calculation: with an accepted operator and a second operand that
    parses, src/calculator.ts prints exactly the result or error line that
    src/index.ts prints, and then asks its operator question. *)
Theorem terminals_print_same_line (num1 : number) (operation answer : string)
    (h : list string) :
  Index.isValidOperation operation = true ->
  isNaN (parseFloat answer) = false ->
  snd (Calculator.calculator (Calculator.AwaitSecond operation num1) answer)
  = snd (Index.compute num1 (parseFloat answer) operation h)
    ++ [Question Calculator.operationPrompt].
Proof.
  intros Hv Hn. cbn [Calculator.calculator]. cbv zeta. rewrite Hn.
  rewrite (calculator_dispatch_valid _ _ _ Hv). unfold Index.compute.
  destruct (Index.dispatch num1 (parseFloat answer) operation) as [r | e];
    [| reflexivity].
  cbn [snd app]. unfold Index.calculationString.
  now rewrite !append_assoc.
Qed.

Lemma terminals_print_same_line_witness :
  snd (Calculator.calculator (Calculator.AwaitSecond "/" (of_Z 3)) "0.5")
  = snd (Index.compute (of_Z 3) (parseFloat "0.5") "/" [])
    ++ [Question Calculator.operationPrompt].
Proof.
  apply (terminals_print_same_line (of_Z 3) "/" "0.5" []); reflexivity.
Defined.

(* ===================================================================== *)
(** * Further properties of the browser form                              *)
(* ===================================================================== *)

Lemma updateHistoryDisplay_rendered (p : Web.page) :
  Web.historyList_innerHTML (Web.updateHistoryDisplay p)
  = rendered (Web.calculationHistory p)
  /\ Web.calculationHistory (Web.updateHistoryDisplay p)
     = Web.calculationHistory p.
Proof.
  unfold Web.updateHistoryDisplay, rendered.
  destruct (length (Web.calculationHistory p) =? 0)%nat; now split.
Qed.

(** X17. The history region of the page follows the history array:
    [updateHistoryDisplay], [addToHistory] and [clearHistory] leave the
    region showing exactly the array, and [handleCalculate] and
    [handleClear] keep it so when it was so before. *)
Theorem history_display_in_sync (p : Web.page) :
  displayInSync (Web.updateHistoryDisplay p)
  /\ (forall calculation, displayInSync (Web.addToHistory calculation p))
  /\ displayInSync (Web.clearHistory p)
  /\ (displayInSync p ->
      displayInSync (Web.handleCalculate p)
      /\ displayInSync (Web.handleClear p)).
Proof.
  assert (U : forall q, displayInSync (Web.updateHistoryDisplay q)).
  { intros q. unfold displayInSync.
    destruct (updateHistoryDisplay_rendered q) as [-> ->]. reflexivity. }
  split; [| split; [| split]].
  - apply U.
  - intros calculation. apply U.
  - apply U.
  - intros S. split; [| exact S]. unfold Web.handleCalculate. cbv zeta.
    destruct (isNaN _ || isNaN _); [exact S |].
    destruct (Web.performCalculation _ _ _); [apply U | exact S].
Qed.

Lemma history_display_in_sync_witness :
  displayInSync
    (Web.handleCalculate
       (Web.withInputs "1" "0" "/"
          (Web.handleCalculate
             (Web.withInputs "2" "3" "*" (Web.clearHistory (Web.initial "+")))))).
Proof.
  apply (history_display_in_sync
           (Web.withInputs "1" "0" "/"
              (Web.handleCalculate
                 (Web.withInputs "2" "3" "*"
                    (Web.clearHistory (Web.initial "+")))))).
  vm_compute. reflexivity.
Defined.

(** X18. [handleCalculate] never touches the two fields or the operator
    choice, and ends in one of two ways.  On success the result region has
    class "result", and the text it shows is the very record appended to
    the history, which the history region then shows.  On failure the
    region has class "result error" and shows a text starting with
    "Error: ", and the history and the history region are as before. *)
Theorem handleCalculate_outcome (p : Web.page) :
  let p' := Web.handleCalculate p in
  Web.num1_value p' = Web.num1_value p
  /\ Web.num2_value p' = Web.num2_value p
  /\ Web.operation_value p' = Web.operation_value p
  /\ (Web.result_className p' = "result"
      /\ Web.calculationHistory p'
         = Web.calculationHistory p ++ [Web.result_textContent p']
      /\ displayInSync p'
      \/
      Web.result_className p' = "result error"
      /\ String.prefix "Error: " (Web.result_textContent p') = true
      /\ Web.calculationHistory p' = Web.calculationHistory p
      /\ Web.historyList_innerHTML p' = Web.historyList_innerHTML p).
Proof.
  cbv zeta. unfold Web.handleCalculate. cbv zeta.
  destruct (isNaN _ || isNaN _).
  { repeat apply conj; try reflexivity. right. now repeat split. }
  destruct (Web.performCalculation _ _ _) as [r | e].
  - set (c := _ +:+ _).
    unfold Web.addToHistory.
    set (q := Web.mkPage _ _ _ _ _ _ _).
    destruct (updateHistoryDisplay_rendered q) as [H1 H2].
    assert (F : Web.num1_value (Web.updateHistoryDisplay q) = Web.num1_value p
                /\ Web.num2_value (Web.updateHistoryDisplay q) = Web.num2_value p
                /\ Web.operation_value (Web.updateHistoryDisplay q)
                   = Web.operation_value p
                /\ Web.result_className (Web.updateHistoryDisplay q) = "result"
                /\ Web.result_textContent (Web.updateHistoryDisplay q) = c).
    { unfold Web.updateHistoryDisplay.
      destruct (length (Web.calculationHistory q) =? 0)%nat;
        now repeat split. }
    destruct F as (F1 & F2 & F3 & F4 & F5).
    repeat apply conj; try assumption. left.
    repeat apply conj; [exact F4 | rewrite H2, F5; reflexivity |].
    unfold displayInSync. now rewrite H1, H2.
  - repeat apply conj; try reflexivity. right.
    repeat split. cbn. now destruct (message e).
Qed.

(** X19. [handleClear] empties the two fields and resets the result region,
    and leaves the operator choice, the history and the history region
    alone.  A calculation asked for right after it fails with "Error:
    Please enter valid numbers" and records nothing. *)
Theorem handleClear_then_calculate (p : Web.page) :
  Web.num1_value (Web.handleClear p) = ""
  /\ Web.num2_value (Web.handleClear p) = ""
  /\ Web.result_textContent (Web.handleClear p) = "Result will appear here"
  /\ Web.result_className (Web.handleClear p) = "result"
  /\ Web.operation_value (Web.handleClear p) = Web.operation_value p
  /\ Web.calculationHistory (Web.handleClear p) = Web.calculationHistory p
  /\ Web.historyList_innerHTML (Web.handleClear p)
     = Web.historyList_innerHTML p
  /\ Web.handleClear (Web.handleClear p) = Web.handleClear p
  /\ Web.handleCalculate (Web.handleClear p)
     = Web.mkPage "" "" (Web.operation_value p)
         "Error: Please enter valid numbers" "result error"
         (Web.historyList_innerHTML p) (Web.calculationHistory p).
Proof. repeat apply conj; reflexivity. Qed.

Lemma imap_map_pointwise {A B C} (f : nat -> A -> C) (g : nat -> A -> B)
    (w : B -> C) (l : list A) :
  (forall i x, f i x = w (g i x)) -> imap f l = map w (imap g l).
Proof.
  revert f g. induction l as [| x l IH]; intros f g H; [reflexivity |].
  cbn. rewrite H. f_equal. apply IH. intros i y. apply H.
Qed.

(** X20. The two front ends number and word the history entries alike: the
    text inside the [i]-th item of the page is the [i]-th line [showHistory]
    prints. *)
Theorem front_ends_number_alike (h : list string) :
  imap Web.historyItem h
  = map (fun line => "<div class=" +:+ DQ +:+ "history-item" +:+ DQ +:+ ">"
                     +:+ line +:+ "</div>")
        (imap Index.historyLine h)
  /\ Index.showHistory h
     = (if (length h =? 0)%nat
        then [ConsoleLog (LF +:+ "No calculations in history yet." +:+ LF)]
        else [ConsoleLog (LF +:+ "=== Calculation History ===")]
             ++ map ConsoleLog (imap Index.historyLine h) ++ [ConsoleLog ""]).
Proof.
  split.
  - apply imap_map_pointwise. intros i x.
    unfold Web.historyItem, Index.historyLine.
    now rewrite !append_assoc.
  - unfold Index.showHistory. now rewrite imap_ConsoleLog.
Qed.

(* ===================================================================== *)
(** * Division of exact multiples                                         *)
(* ===================================================================== *)

Lemma canonical_exponent_range (p m : positive) (e : Z) :
  e <= 0 -> Zpos m = Zpos p * 2 ^ (- e) -> Zpos m < 2 ^ 53 -> -53 < e.
Proof.
  intros Le V B.
  destruct (Z_lt_le_dec (-53) e) as [G | L]; [exact G | exfalso].
  assert (2 ^ 53 <= 2 ^ (- e)) by (apply Z.pow_le_mono_r; lia).
  nia.
Qed.

Lemma canonical_digits (m : positive) :
  2 ^ 52 <= Zpos m < 2 ^ 53 -> Zpos (digits2_pos m) = 53.
Proof.
  intros [L U]. pose proof (digits2_pos_bounds m) as [B1 B2].
  destruct (Z.lt_trichotomy (Zpos (digits2_pos m)) 53) as [H | [H | H]];
    [exfalso | exact H | exfalso].
  - assert (2 ^ Zpos (digits2_pos m) <= 2 ^ 52)
      by (apply Z.pow_le_mono_r; lia). lia.
  - assert (2 ^ 53 <= 2 ^ (Zpos (digits2_pos m) - 1))
      by (apply Z.pow_le_mono_r; lia). lia.
Qed.

Lemma new_location_zero (n : Z) : new_location n 0 = loc_Exact.
Proof. unfold new_location. now destruct (Z.even n). Qed.

Lemma pow2_window (n u v : Z) :
  0 <= u -> 0 <= v ->
  2 ^ (u - 1) <= n < 2 ^ u -> 2 ^ (v - 1) <= n < 2 ^ v -> 0 < n -> u = v.
Proof.
  intros Hu Hv [L1 U1] [L2 U2] Hn.
  destruct (Z.lt_trichotomy u v) as [H | [H | H]]; [exfalso | exact H | exfalso].
  - assert (2 ^ u <= 2 ^ (v - 1)) by (apply Z.pow_le_mono_r; lia). lia.
  - assert (2 ^ v <= 2 ^ (u - 1)) by (apply Z.pow_le_mono_r; lia). lia.
Qed.

(** The exponent of the double of a safe positive integer. *)
Lemma canonical_exponent (p m : positive) (e : Z) :
  e <= 0 -> Zpos m = Zpos p * 2 ^ (- e) -> 2 ^ 52 <= Zpos m < 2 ^ 53 ->
  e = Zpos (digits2_pos p) - 53.
Proof.
  intros Le V B. pose proof (digits2_pos_bounds p) as [B1 B2].
  set (d := Zpos (digits2_pos p)) in *.
  assert (P : 0 < 2 ^ (- e)) by (apply Z.pow_pos_nonneg; lia).
  assert (W : 2 ^ (d - e - 1) <= Zpos m < 2 ^ (d - e)).
  { rewrite V. split.
    - replace (d - e - 1) with ((d - 1) + - e) by lia.
      rewrite Z.pow_add_r by lia. apply Z.mul_le_mono_nonneg_r; lia.
    - replace (d - e) with (d + - e) by lia.
      rewrite Z.pow_add_r by lia. apply Z.mul_lt_mono_pos_r; lia. }
  assert (d - e = 53); [| lia].
  apply (pow2_window (Zpos m)); lia.
Qed.

Lemma digits2_pos_mul (px py : positive) :
  Zpos (digits2_pos (px * py))
  <= Zpos (digits2_pos px) + Zpos (digits2_pos py).
Proof.
  pose proof (digits2_pos_bounds px) as [_ Ux].
  pose proof (digits2_pos_bounds py) as [_ Uy].
  pose proof (digits2_pos_bounds (px * py)) as [L _].
  assert (U : Zpos (px * py)
              < 2 ^ (Zpos (digits2_pos px) + Zpos (digits2_pos py))).
  { rewrite Pos2Z.inj_mul, Z.pow_add_r by lia.
    apply Z.mul_lt_mono_nonneg; lia. }
  destruct (Z_le_gt_dec (Zpos (digits2_pos (px * py)))
              (Zpos (digits2_pos px) + Zpos (digits2_pos py))) as [G | G];
    [exact G | exfalso].
  assert (2 ^ (Zpos (digits2_pos px) + Zpos (digits2_pos py))
          <= 2 ^ (Zpos (digits2_pos (px * py)) - 1))
    by (apply Z.pow_le_mono_r; lia).
  lia.
Qed.

Lemma div_eucl_exact (b q : Z) : 0 < b -> Z.div_eucl (b * q) b = (q, 0).
Proof.
  intros Hb.
  assert (E : Z.div_eucl (b * q) b = ((b * q) / b, (b * q) mod b)).
  { unfold Z.div, Z.modulo. now destruct (Z.div_eucl (b * q) b). }
  rewrite E, Z.mul_comm, Z.div_mul, Z.mod_mul by lia. reflexivity.
Qed.

Lemma divide_safe_pos (s : bool) (px py : positive) :
  Zpos (px * py) < 2 ^ 53 ->
  num_div (binary_round prec emax s (px * py) 0)
          (binary_round prec emax false py 0)
  = binary_round prec emax s px 0.
Proof.
  intros H.
  assert (Hx : Zpos px < 2 ^ 53) by (rewrite Pos2Z.inj_mul in H; nia).
  assert (Hy : Zpos py < 2 ^ 53) by (rewrite Pos2Z.inj_mul in H; nia).
  destruct (binary_round_safe_canonical (px * py) H)
    as (m1 & e1 & R1 & L1 & V1 & B1 & _).
  destruct (binary_round_safe_canonical py Hy)
    as (m2 & e2 & R2 & L2 & V2 & B2 & _).
  destruct (binary_round_safe_canonical px Hx)
    as (mq & eq & Rq & Lq & Vq & Bq & Cq).
  pose proof (canonical_exponent _ _ _ L1 V1 B1) as X1.
  pose proof (canonical_exponent _ _ _ L2 V2 B2) as X2.
  pose proof (canonical_exponent _ _ _ Lq Vq Bq) as Xq.
  pose proof (canonical_digits m1 B1) as D1.
  pose proof (canonical_digits m2 B2) as D2.
  pose proof (digits2_pos_mul px py) as DM.
  pose proof (digits2_pos_safe px Hx) as Sx.
  set (dx := Zpos (digits2_pos px)) in *.
  set (dy := Zpos (digits2_pos py)) in *.
  set (dxy := Zpos (digits2_pos (px * py))) in *.
  assert (0 < dx /\ 0 < dy /\ 0 < dxy) as (Px & Py & Pxy) by (unfold dx, dy, dxy; lia).
  rewrite R1, R2, Rq. unfold num_div. cbn [SFdiv].
  unfold SFdiv_core_binary. cbn [Zdigits2]. cbv zeta. rewrite D1, D2.
  replace (53 + e1 - (53 + e2)) with (e1 - e2) by lia.
  assert (F : fexp prec emax (e1 - e2) = e1 - e2 - 53)
    by (unfold fexp, emin, prec, emax; lia).
  rewrite F.
  replace (Z.min (e1 - e2 - 53) (e1 - e2)) with (e1 - e2 - 53) by lia.
  replace (e1 - e2 - (e1 - e2 - 53)) with 53 by lia.
  rewrite Z.shiftl_mul_pow2 by lia.
  set (j := dx + dy - dxy).
  assert (Q : Zpos m1 * 2 ^ 53 = Zpos m2 * (Zpos mq * 2 ^ j)).
  { rewrite V1, V2, Vq, Pos2Z.inj_mul.
    replace (Zpos px * Zpos py * 2 ^ (- e1) * 2 ^ 53)
      with (Zpos px * Zpos py * (2 ^ (- e1) * 2 ^ 53)) by ring.
    replace (Zpos py * 2 ^ (- e2) * (Zpos px * 2 ^ (- eq) * 2 ^ j))
      with (Zpos px * Zpos py * (2 ^ (- e2) * (2 ^ (- eq) * 2 ^ j))) by ring.
    f_equal. rewrite <- !Z.pow_add_r by (unfold j; lia).
    f_equal. unfold j. lia. }
  rewrite Q, div_eucl_exact by lia.
  rewrite new_location_zero, xorb_false_r.
  replace (e1 - e2 - 53) with (eq - j) by (unfold j; lia).
  destruct j as [| k | k] eqn:J; [| | lia].
  - rewrite Z.mul_1_r, Z.sub_0_r.
    apply binary_round_aux_canonical; [exact Cq |]. unfold emax, prec. lia.
  - rewrite <- shift_value.
    apply binary_round_aux_exact; [exact Cq |]. unfold emax, prec. lia.
Qed.

Lemma num_div_of_Z (x y : Z) :
  x <> 0 -> y <> 0 -> Z.abs (x * y) < 2 ^ 53 ->
  num_div (of_Z (x * y)) (of_Z y) = of_Z x.
Proof.
  intros Nx Ny H. unfold of_Z.
  destruct x as [| px | px]; [congruence | |];
    destruct y as [| py | py]; try congruence;
    change (Zpos (px * py) < 2 ^ 53) in H;
    pose proof (divide_safe_pos false px py H) as F;
    pose proof (divide_safe_pos true px py H) as T;
    destruct (binary_round_safe py) as (my & ey & Ry & _);
    try (rewrite Pos2Z.inj_mul in H; nia);
    destruct (binary_round_safe (px * py) H) as (m & e & R & _).
  - exact F.
  - change (num_div (binary_round prec emax true (px * py) 0)
                    (binary_round prec emax true py 0)
            = binary_round prec emax false px 0).
    rewrite <- F. now rewrite !R, !Ry.
  - exact T.
  - change (num_div (binary_round prec emax false (px * py) 0)
                    (binary_round prec emax true py 0)
            = binary_round prec emax true px 0).
    rewrite <- T. now rewrite !R, !Ry.
Qed.

(** X21. Division undoes multiplication on integers: for non-zero integers
    [x] and [y] whose product is below 2^53 in size, [divide] of the double
    of [x * y] by the double of [y] returns the double that holds [x], and
    so does dividing [multiply] of the two doubles by the second. *)
Theorem safe_integer_division_exact (x y : Z) :
  x <> 0 -> y <> 0 -> Z.abs (x * y) < 2 ^ 53 ->
  divide (of_Z (x * y)) (of_Z y) = Return (of_Z x)
  /\ divide (multiply (of_Z x) (of_Z y)) (of_Z y) = Return (of_Z x)
  /\ integerValue (of_Z x) = Some x.
Proof.
  intros Nx Ny H.
  assert (By : Z.abs y < 2 ^ 53) by nia.
  assert (Bx : Z.abs x < 2 ^ 53) by nia.
  assert (D : divide (of_Z (x * y)) (of_Z y) = Return (of_Z x)).
  { rewrite <- (num_div_of_Z x y Nx Ny H).
    destruct (of_Z_safe y Ny By) as (m & e & -> & _).
    apply divide_finite_divisor. }
  repeat apply conj.
  - exact D.
  - unfold multiply. now rewrite (num_mul_of_Z x y Nx Ny H).
  - now apply integerValue_of_Z.
Qed.

Lemma safe_integer_division_exact_witness :
  divide (of_Z (-9007199136250225)) (of_Z 94906265) = Return (of_Z (-94906265))
  /\ divide (multiply (of_Z 6) (of_Z (-3))) (of_Z (-3)) = Return (of_Z 6).
Proof.
  split.
  - apply (safe_integer_division_exact (-94906265) 94906265); lia.
  - apply (safe_integer_division_exact 6 (-3)); lia.
Defined.

(* ===================================================================== *)
(** * Adding and subtracting back, for all doubles                        *)
(* ===================================================================== *)









Lemma cond_Zopp_nonzero (s : bool) (m : positive) : cond_Zopp s (Zpos m) <> 0.
Proof. destruct s; cbn; lia. Qed.



(** The additions of the counterexample are ones that round.  An addition
    that rounds can still be undone by the subtraction, as 1 + 1e-30 is. *)
Example rounding_additions :
  addIsExact (of_Z 1) (of_Z (2 ^ 53)) = false
  /\ addIsExact (parseFloat "0.1") (parseFloat "0.2") = false
  /\ addIsExact (parseFloat "1.7976931348623157e308")
                (parseFloat "1.7976931348623157e308") = false
  /\ addIsExact (of_Z 3) (of_Z (-3)) = true
  /\ addIsExact (of_Z 1) (parseFloat "1e-30") = false
  /\ subtract (add (of_Z 1) (parseFloat "1e-30")) (parseFloat "1e-30")
     = of_Z 1.
Proof. repeat split; vm_compute; reflexivity. Qed.

(* ===================================================================== *)
(** * What the history looks like when it is shown                        *)
(* ===================================================================== *)

Lemma imap_historyLine_from (k : nat) (h : list string) :
  imap (fun i c => Index.historyLine (k + i) c) h = numberedFrom (S k) h.
Proof.
  revert k. induction h as [| x h IH]; intros k; [reflexivity |].
  cbn [imap numberedFrom]. f_equal.
  - unfold Index.historyLine. now rewrite Nat.add_0_r, Nat.add_1_r.
  - rewrite <- IH. apply imap_ext. intros i y _. cbn. f_equal. lia.
Qed.

(** The lines [showHistory] prints for the records are the numbered lines
    of the specification. *)
Lemma imap_historyLine (h : list string) :
  imap Index.historyLine h = numberedFrom 1 h.
Proof. exact (imap_historyLine_from 0 h). Qed.

Lemma numberedFrom_length (k : nat) (h : list string) :
  length (numberedFrom k h) = length h.
Proof.
  revert k. induction h as [| x h IH]; intros k; [reflexivity |].
  cbn. now rewrite IH.
Qed.

Lemma numberedFrom_lookup (k i : nat) (h : list string) (r : string) :
  h !! i = Some r ->
  numberedFrom k h !! i = Some (index_toString (i + k) +:+ ". " +:+ r).
Proof.
  revert k i. induction h as [| x h IH]; intros k i H; [discriminate |].
  destruct i as [| i]; simpl in H |- *.
  - now inversion H.
  - rewrite (IH (S k) i H). do 3 f_equal. lia.
Qed.

Lemma showHistory_lines (h : list string) :
  h <> [] ->
  Index.showHistory h
  = ConsoleLog (LF +:+ "=== Calculation History ===")
    :: map ConsoleLog (numberedFrom 1 h) ++ [ConsoleLog ""].
Proof.
  intros H. rewrite (showHistory_nonempty h H), imap_historyLine. reflexivity.
Qed.









(* ===================================================================== *)
(** * The continuation prompt, line by line                               *)
(* ===================================================================== *)

Lemma main_history_token (answer : string) (h : list string) :
  trim (toLowerCase answer) = "history" ->
  Index.main Index.AwaitContinuation answer h
  = (Index.AwaitOperand1, h,
     Index.showHistory h ++ [Question Index.firstPrompt]).
Proof. intros E. unfold Index.main. cbv zeta. now rewrite E. Qed.

Lemma main_quit_token (answer : string) (h : list string) :
  Index.wantsToQuit answer = true ->
  Index.main Index.AwaitContinuation answer h
  = (Index.Exited, h, [ConsoleLog (LF +:+ "Goodbye!"); Close]).
Proof.
  intros Q. pose proof Q as T. apply wantsToQuit_tokens in T.
  unfold Index.main. cbv zeta. rewrite Q.
  destruct T as [E | [E | E]]; rewrite E; reflexivity.
Qed.

(** C7. At the continuation question of src/index.ts the line is lowercased
    and trimmed; then the empty line starts a new calculation; "history"
    prints the history (the heading, one numbered line per record in order
    and an empty line, or the "No calculations in history yet." message
    when there is none), leaves it as it is and asks for the first operand,
    no calculation being made; "clear" empties the history and asks for the
    first operand; "q", "quit" and "no" leave the loop for good; every
    other line does what the empty line does. *)
Theorem continuation_tokens (answer : string) (h : list string) :
  let token := trim (toLowerCase answer) in
  (token = "" ->
     Index.main Index.AwaitContinuation answer h
     = (Index.AwaitOperand1, h, [ConsoleLog ""; Question Index.firstPrompt]))
  /\ (token = "history" ->
     Index.main Index.AwaitContinuation answer h
     = (Index.AwaitOperand1, h,
        Index.showHistory h ++ [Question Index.firstPrompt])
     /\ (h = [] ->
         Index.main Index.AwaitContinuation answer h
         = (Index.AwaitOperand1, [],
            [ConsoleLog (LF +:+ "No calculations in history yet." +:+ LF);
             Question Index.firstPrompt]))
     /\ (h <> [] ->
         Index.main Index.AwaitContinuation answer h
         = (Index.AwaitOperand1, h,
            ConsoleLog (LF +:+ "=== Calculation History ===")
            :: map ConsoleLog (numberedFrom 1 h)
               ++ [ConsoleLog ""; Question Index.firstPrompt]))
     /\ length (numberedFrom 1 h) = length h
     /\ (forall i r, h !! i = Some r ->
           numberedFrom 1 h !! i
           = Some (index_toString (i + 1) +:+ ". " +:+ r)))
  /\ (token = "clear" ->
     Index.main Index.AwaitContinuation answer h
     = (Index.AwaitOperand1, [],
        [ConsoleLog (LF +:+ "History cleared!" +:+ LF);
         Question Index.firstPrompt]))
  /\ (token = "q" \/ token = "quit" \/ token = "no" ->
     Index.main Index.AwaitContinuation answer h
     = (Index.Exited, h, [ConsoleLog (LF +:+ "Goodbye!"); Close])
     /\ forall shown answers,
         Index.run (Index.AwaitContinuation, h, shown) (answer :: answers)
         = (Index.Exited, h,
            shown ++ [ConsoleLog (LF +:+ "Goodbye!"); Close]))
  /\ (token <> "history" -> token <> "clear" ->
      token <> "q" -> token <> "quit" -> token <> "no" ->
     Index.main Index.AwaitContinuation answer h
     = Index.main Index.AwaitContinuation "" h).
Proof.
  cbv zeta.
  split; [| split; [| split; [| split]]].
  - intros E. unfold Index.main, Index.wantsToQuit. cbv zeta. rewrite E.
    reflexivity.
  - intros E. rewrite (main_history_token answer h E).
    split; [reflexivity |]. split; [| split; [| split]].
    + intros ->. reflexivity.
    + intros N. rewrite (showHistory_lines h N).
      rewrite <- app_comm_cons, <- app_assoc. reflexivity.
    + apply numberedFrom_length.
    + intros i r Hr. apply numberedFrom_lookup. exact Hr.
  - intros E. unfold Index.main. cbv zeta. rewrite E. reflexivity.
  - intros E.
    assert (Q : Index.wantsToQuit answer = true) by now apply wantsToQuit_tokens.
    pose proof (main_quit_token answer h Q) as M.
    split; [exact M |].
    intros shown answers. cbn [Index.run]. rewrite M. apply run_Exited.
  - intros N1 N2 N3 N4 N5. unfold Index.main. cbv zeta.
    apply String.eqb_neq in N1, N2. rewrite N1, N2.
    destruct (Index.wantsToQuit answer) eqn:Q; [| reflexivity].
    apply wantsToQuit_tokens in Q. tauto.
Qed.

Lemma continuation_tokens_witness :
  Index.main Index.AwaitContinuation "  " ["10 + 5 = 15"]
  = (Index.AwaitOperand1, ["10 + 5 = 15"],
     [ConsoleLog ""; Question Index.firstPrompt])
  /\ Index.main Index.AwaitContinuation " HiStory "
                ["10 + 5 = 15"; "3 / 0.5 = 6"]
     = (Index.AwaitOperand1, ["10 + 5 = 15"; "3 / 0.5 = 6"],
        [ConsoleLog (LF +:+ "=== Calculation History ===");
         ConsoleLog "1. 10 + 5 = 15";
         ConsoleLog "2. 3 / 0.5 = 6";
         ConsoleLog "";
         Question "Enter the first number: "])
  /\ Index.main Index.AwaitContinuation "history" []
     = (Index.AwaitOperand1, [],
        [ConsoleLog (LF +:+ "No calculations in history yet." +:+ LF);
         Question "Enter the first number: "])
  /\ Index.main Index.AwaitContinuation "CLEAR" ["10 + 5 = 15"]
     = (Index.AwaitOperand1, [],
        [ConsoleLog (LF +:+ "History cleared!" +:+ LF);
         Question Index.firstPrompt])
  /\ Index.main Index.AwaitContinuation " Quit" ["10 + 5 = 15"]
     = (Index.Exited, ["10 + 5 = 15"], [ConsoleLog (LF +:+ "Goodbye!"); Close])
  /\ Index.main Index.AwaitContinuation "yes please" ["10 + 5 = 15"]
     = Index.main Index.AwaitContinuation "" ["10 + 5 = 15"].
Proof.
  repeat apply conj.
  - apply (proj1 (continuation_tokens "  " ["10 + 5 = 15"])). reflexivity.
  - rewrite (proj1 (proj2 (proj2
               (proj1 (proj2 (continuation_tokens " HiStory "
                                ["10 + 5 = 15"; "3 / 0.5 = 6"])) eq_refl)))
               ltac:(discriminate)).
    vm_compute. reflexivity.
  - apply (proj1 (proj2
             (proj1 (proj2 (continuation_tokens "history" [])) eq_refl))
             eq_refl).
  - apply (proj1 (proj2 (proj2 (continuation_tokens "CLEAR" ["10 + 5 = 15"])))).
    reflexivity.
  - apply (proj1 (proj2 (proj2 (proj2
             (continuation_tokens " Quit" ["10 + 5 = 15"]))))).
    right. left. reflexivity.
  - apply (proj2 (proj2 (proj2 (proj2
             (continuation_tokens "yes please" ["10 + 5 = 15"])))));
      discriminate.
Defined.
